(** * The rubric scoring engine of vaanimeter ([scorer.py])

    A shallow embedding of [IntroductionScorer] and the properties of its
    five category evaluators and of the aggregator
    [calculate_final_score].

    Modelling conventions.
    - A transcript is a [string] whose characters are code points below
      256; [isspace] and [lower] follow Python's [str.isspace] and
      [str.lower] on that range.
    - Python integers are [Z]; Python floats are exact rationals [Q].  The
      engine only divides, scales and compares its floats against the
      band edges, and the theorems below are stated on these exact
      values.
    - A Python dict with a fixed set of keys is a record; a dict that is
      iterated or built in a loop is an association list in insertion
      order.
    - Exceptions and the calls made to the two collaborators are
      explicit: a computation yields a result (or an exception) together
      with the trace of the calls it made. *)

From Stdlib Require Import ZArith QArith Qround String Ascii List Lia Lqa Bool.
Import ListNotations.

Local Open Scope string_scope.
Local Open Scope Z_scope.

(** ** Python strings *)

Module Str.

(** [str.isspace] on one character. *)
Definition isspace (c : ascii) : bool :=
  let n := N_of_ascii c in
  (((9 <=? n) && (n <=? 13)) || ((28 <=? n) && (n <=? 32))
   || (n =? 133) || (n =? 160))%N.

(** [str.lower] on one character. *)
Definition lower_char (c : ascii) : ascii :=
  let n := N_of_ascii c in
  if (((65 <=? n) && (n <=? 90))
      || ((192 <=? n) && (n <=? 222) && negb (n =? 215)))%N
  then ascii_of_N (n + 32) else c.

(** [s.lower()] *)
Fixpoint lower (s : string) : string :=
  match s with
  | EmptyString => EmptyString
  | String c s' => String (lower_char c) (lower s')
  end.

(** Truth value of a string: [bool(s)]. *)
Definition truthy (s : string) : bool :=
  match s with EmptyString => false | String _ _ => true end.

(** Every character is white space (so also for the empty string). *)
Fixpoint all_space (s : string) : bool :=
  match s with
  | EmptyString => true
  | String c s' => isspace c && all_space s'
  end.

(** [len(xs)] *)
Definition len {A : Type} (xs : list A) : Z := Z.of_nat (List.length xs).

(** [s.split()]: the maximal runs of characters that are not white space.
    [cur] is the run being read. *)
Fixpoint split_from (cur s : string) : list string :=
  match s with
  | EmptyString => if truthy cur then [cur] else []
  | String c s' =>
      if isspace c
      then (if truthy cur then cur :: split_from "" s' else split_from "" s')
      else split_from (cur ++ String c "") s'
  end.

Definition split (s : string) : list string := split_from "" s.

(** [s.strip()] *)
Fixpoint lstrip (s : string) : string :=
  match s with
  | EmptyString => EmptyString
  | String c s' => if isspace c then lstrip s' else s
  end.

Fixpoint rstrip (s : string) : string :=
  match s with
  | EmptyString => EmptyString
  | String c s' =>
      let r := rstrip s' in
      if isspace c && negb (truthy r) then EmptyString else String c r
  end.

Definition strip (s : string) : string := rstrip (lstrip s).

(** [s.find(p)]: the position of the first occurrence of [p] in [s], or
    -1.  [i] is the position of [s] in the whole text. *)
Fixpoint find_from (p s : string) (i : Z) : Z :=
  if prefix p s then i
  else match s with
       | EmptyString => -1
       | String _ s' => find_from p s' (i + 1)
       end.

Definition find (p s : string) : Z := find_from p s 0.

(** [p in s] *)
Fixpoint contains (p s : string) : bool :=
  prefix p s ||
  match s with
  | EmptyString => false
  | String _ s' => contains p s'
  end.

(** [s.count(p)]: occurrences of [p] in [s] that do not overlap, read from
    the left.  [skip] characters of the last occurrence are still to be
    passed. *)
Fixpoint count_from (p s : string) (skip : nat) : Z :=
  match skip with
  | S k =>
      match s with
      | EmptyString => 0
      | String _ s' => count_from p s' k
      end
  | O =>
      if prefix p s
      then 1 + match s with
               | EmptyString => 0
               | String _ s' => count_from p s' (Nat.pred (String.length p))
               end
      else match s with
           | EmptyString => 0
           | String _ s' => count_from p s' O
           end
  end.

Definition count (p s : string) : Z := count_from p s O.

(** [w in ws] for a list of strings. *)
Definition mem (w : string) (ws : list string) : bool :=
  existsb (String.eqb w) ws.

(** [any(p in s for p in patterns)] *)
Definition any_in (patterns : list string) (s : string) : bool :=
  existsb (fun p => contains p s) patterns.

(** [len(set(ws))] *)
Definition distinct (ws : list string) : Z := len (nodup string_dec ws).

End Str.

(** ** Python numbers *)

Module Num.

Local Open Scope Q_scope.

Definition leb (x y : Q) : bool := Qle_bool x y.
Definition ltb (x y : Q) : bool := negb (Qle_bool y x).

(** [min(a, b)]: the first of the smallest. *)
Definition min (a b : Q) : Q := if ltb b a then b else a.

(** [int(x)]: truncation towards zero. *)
Definition int (x : Q) : Z := if leb 0 x then Qfloor x else Qceiling x.

(** [round(x, 2)]: to the nearest hundredth, a tie to the even one. *)
Definition round2 (x : Q) : Q :=
  let y := x * 100 in
  let f := Qfloor y in
  let r := y - inject_Z f in
  let n := if ltb r 0.5 then f
           else if ltb 0.5 r then (f + 1)%Z
           else if Z.even f then f else (f + 1)%Z in
  inject_Z n / 100.

End Num.

Declare Scope float_scope.
Delimit Scope float_scope with float.
Infix "<=?" := Num.leb (at level 70, no associativity) : float_scope.
Infix "<?" := Num.ltb (at level 70, no associativity) : float_scope.
Notation "x >=? y" := (Num.leb y x) (at level 70, no associativity) : float_scope.
Notation "x >? y" := (Num.ltb y x) (at level 70, no associativity) : float_scope.

(** ** Exceptions and the trace of calls *)

Inductive exn : Type :=
| ZeroDivisionError
| KeyError (key : string).

Inductive evaluator : Type :=
| ContentStructure | SpeechRate | LanguageGrammar | Clarity | Engagement.

(** What an execution does that its caller can observe besides the value it
    returns: an evaluator is entered, the grammar checker is asked to check
    a text, the sentiment analyzer is asked for the polarity of a text. *)
Inductive event : Type :=
| Invoked (e : evaluator)
| GrammarCheck (text : string)
| PolarityScores (text : string).

Definition trace : Type := list event.

(** A computation: the value it returns or the exception it raises, and the
    calls it made, in order. *)
Definition M (A : Type) : Type := ((exn + A) * trace)%type.

Definition ret {A : Type} (a : A) : M A := (inr a, []).

Definition raise {A : Type} (e : exn) : M A := (inl e, []).

Definition bind {A B : Type} (m : M A) (k : A -> M B) : M B :=
  match m with
  | (inl e, tr) => (inl e, tr)
  | (inr a, tr) => let (v, tr') := k a in (v, (tr ++ tr')%list)
  end.

Definition emit (ev : event) : M unit := (inr tt, [ev]).

Declare Scope monad_scope.
Delimit Scope monad_scope with monad.
Notation "x <- m ;; k" := (bind m (fun x => k))
  (at level 61, m at next level, right associativity) : monad_scope.
Notation "m ;; k" := (bind m (fun _ => k))
  (at level 61, right associativity) : monad_scope.
Local Open Scope monad_scope.

(** [a / b] on floats. *)
Definition truediv (a b : Q) : M Q :=
  if Qeq_bool b 0 then raise ZeroDivisionError else ret (a / b)%Q.

(** [b and m], where [m] is only evaluated when [b] holds. *)
Definition and_then (b : bool) (m : M bool) : M bool :=
  if b then m else ret false.

(** ** Dicts built at run time *)

Fixpoint dict_set {V : Type} (d : list (string * V)) (k : string) (v : V)
  : list (string * V) :=
  match d with
  | [] => [(k, v)]
  | (k', v') :: d' =>
      if String.eqb k' k then (k, v) :: d' else (k', v') :: dict_set d' k v
  end.

Fixpoint dict_get {V : Type} (d : list (string * V)) (k : string) : option V :=
  match d with
  | [] => None
  | (k', v) :: d' => if String.eqb k' k then Some v else dict_get d' k
  end.

(** [d[k]] *)
Definition getitem {V : Type} (d : list (string * V)) (k : string) : M V :=
  match dict_get d k with
  | Some v => ret v
  | None => raise (KeyError k)
  end.

(** ** The collaborators *)

(** One issue reported by the grammar checker. *)
Record Match : Type := { ruleId : string; message : string }.

(** The grammar checker: [tool.check(text)] is the list of issues found. *)
Record LanguageTool : Type := { check : string -> list Match }.

(** The dict returned by [analyzer.polarity_scores(text)]; the engine reads
    only its ['compound'] entry. *)
Record Polarity : Type := { compound : Q }.

Record SentimentIntensityAnalyzer : Type :=
  { polarity_scores : string -> Polarity }.

(** [self]: [load_language_tool] returns [None] when the checker cannot be
    loaded. *)
Record IntroductionScorer : Type :=
  { grammar_tool : option LanguageTool;
    vader_analyzer : SentimentIntensityAnalyzer }.

(** ** The result dicts *)

Module Content.
Record t : Type :=
  { salutation_score : Z;
    keyword_must_have_score : Z;
    keyword_good_to_have_score : Z;
    flow_score : Z;
    total : Z }.
End Content.

Module Speech.
Record t : Type := { wpm : Z; score : Z }.
End Speech.

Module Language.
Record t : Type :=
  { grammar_score : Z; vocabulary_richness_score : Z; total : Z }.
End Language.

Module Clar.
Record t : Type :=
  { filler_word_count : Z; filler_word_rate_percent : Q; score : Z }.
End Clar.

Module Engage.
Record t : Type := { sentiment_positive_probability : Q; score : Z }.
End Engage.

Record Report : Type :=
  { overall_score : Z;
    content_and_structure : Content.t;
    speech_rate : Speech.t;
    language_and_grammar : Language.t;
    clarity : Clar.t;
    engagement : Engage.t }.

(** ** Content and structure (lines 19-132) *)

Definition strong_salutations : list string :=
  [ "i am excited to introduce myself";
    "i'm very happy to introduce myself";
    "i am very happy to introduce myself" ].

Definition good_salutations : list string :=
  [ "good morning"; "good afternoon"; "good evening";
    "good day"; "hello everyone" ].

Definition basic_salutations : list string := [ "hi"; "hello" ].

Definition must_haves : list (string * list string) :=
  [ ("Name", [ "name is"; "i am"; "my name" ]);
    ("Age", [ "years old"; "age is"; "i am 1"; "i am 2"; "i am 3"; "i am 4";
              "i am 5"; "i am 6"; "i am 7"; "i am 8"; "i am 9" ]);
    ("School/Class", [ "study in"; "class"; "grade"; "school"; "student at" ]);
    ("Family", [ "family"; "parents"; "brother"; "sister"; "mother"; "father";
                 "live with" ]);
    ("Hobbies", [ "hobby"; "hobbies"; "like to"; "enjoy"; "love to";
                  "playing"; "reading" ]) ].

Definition good_to_haves : list (string * list string) :=
  [ ("Family Details", [ "father is"; "mother is"; "sister is"; "brother is";
                         "parents are" ]);
    ("Origin", [ "i am from"; "parents are from"; "born in"; "native" ]);
    ("Ambition", [ "want to become"; "goal"; "future"; "aim to"; "dream" ]);
    ("Unique", [ "interesting"; "unique"; "fact about me"; "special" ]);
    ("Strengths", [ "strength"; "good at"; "achievement"; "proud of" ]) ].

Definition closings : list string := [ "thank you"; "thanks"; "that's all" ].

(** 1.1 Salutation (lines 44-51). *)
Definition salutation (lower_text : string) : Z :=
  if Str.any_in strong_salutations lower_text then 5
  else if Str.any_in good_salutations lower_text then 4
  else if Str.any_in basic_salutations lower_text then 2
  else 0.

(** The loop of lines 63-65 and 78-80: [points] for each category one of
    whose patterns is in the text. *)
Definition keyword_points (points : Z) (table : list (string * list string))
  (lower_text : string) : Z :=
  fold_left
    (fun acc kv => if Str.any_in (snd kv) lower_text then acc + points else acc)
    table 0.

(** The inner loops of lines 88-92, 95-99 and 102-106: the position of the
    first pattern, in the order of the list, that [find] locates. *)
Fixpoint first_found (patterns : list string) (lower_text : string) : Z :=
  match patterns with
  | [] => -1
  | p :: ps =>
      let idx := Str.find p lower_text in
      if negb (idx =? -1) then idx else first_found ps lower_text
  end.

(** Lines 85-92. *)
Definition build_indices (lower_text : string) : list (string * Z) :=
  fold_left
    (fun indices kv => dict_set indices (fst kv) (first_found (snd kv) lower_text))
    must_haves [].

(** Lines 94-99. *)
Definition salutation_index (lower_text : string) : Z :=
  first_found (good_salutations ++ basic_salutations)%list lower_text.

(** Lines 101-106. *)
Definition closing_index (lower_text : string) : Z :=
  first_found closings lower_text.

(** 1.4 Flow (lines 85-122). *)
Definition flow (lower_text : string) : M Z :=
  let indices := build_indices lower_text in
  let salutation_idx := salutation_index lower_text in
  let closing_idx := closing_index lower_text in
  let flow_score := 5 in
  c1 <- and_then (negb (salutation_idx =? -1))
          (n <- getitem indices "Name" ;;
           and_then (negb (n =? -1))
             (n' <- getitem indices "Name" ;; ret (n' <? salutation_idx))) ;;
  let flow_score := if c1 then flow_score - 2 else flow_score in
  c2 <- and_then (negb (closing_idx =? -1))
          (n <- getitem indices "Name" ;;
           and_then (negb (n =? -1))
             (n' <- getitem indices "Name" ;; ret (closing_idx <? n'))) ;;
  let flow_score := if c2 then flow_score - 3 else flow_score in
  c3 <- (h <- getitem indices "Hobbies" ;;
         and_then (negb (h =? -1))
           (n <- getitem indices "Name" ;;
            and_then (negb (n =? -1))
              (h' <- getitem indices "Hobbies" ;;
               n' <- getitem indices "Name" ;; ret (h' <? n')))) ;;
  let flow_score := if c3 then flow_score - 1 else flow_score in
  ret (Z.max 0 flow_score).

Definition evaluate_content_structure (self : IntroductionScorer)
  (text : string) : M Content.t :=
  emit (Invoked ContentStructure) ;;
  let lower_text := Str.lower text in
  let salutation_score := salutation lower_text in
  let must_have_score := Z.min 20 (keyword_points 4 must_haves lower_text) in
  let good_to_have_score :=
    Z.min 10 (keyword_points 2 good_to_haves lower_text) in
  flow_score <- flow lower_text ;;
  let total :=
    salutation_score + must_have_score + good_to_have_score + flow_score in
  ret {| Content.salutation_score := salutation_score;
         Content.keyword_must_have_score := must_have_score;
         Content.keyword_good_to_have_score := good_to_have_score;
         Content.flow_score := flow_score;
         Content.total := total |}.

(** ** Speech rate (lines 134-158) *)

(** Lines 144-153. *)
Definition speech_rate_score (wpm : Q) : Z :=
  (if wpm >? 161 then 2
   else if (141 <=? wpm) && (wpm <=? 160) then 6
   else if (111 <=? wpm) && (wpm <=? 140) then 10
   else if (81 <=? wpm) && (wpm <=? 110) then 6
   else 2)%float.

(** Lines 139-142: the words per minute of a text spoken in 52 seconds. *)
Definition words_per_minute (text : string) : M Q :=
  let words := Str.split text in
  let word_count := Str.len words in
  duration_min <- truediv 52 60 ;;
  if (duration_min >? 0)%float
  then truediv (inject_Z word_count) duration_min
  else ret 0%Q.

Definition evaluate_speech_rate (self : IntroductionScorer) (text : string)
  : M Speech.t :=
  emit (Invoked SpeechRate) ;;
  wpm <- words_per_minute text ;;
  let score := speech_rate_score wpm in
  ret {| Speech.wpm := Num.int wpm; Speech.score := score |}.

(** ** Language and grammar (lines 160-212) *)

(** Lines 181-190. *)
Definition grammar_band (g_ratio : Q) : Z :=
  (if g_ratio >=? 0.9 then 10
   else if (0.7 <=? g_ratio) && (g_ratio <? 0.9) then 8
   else if (0.5 <=? g_ratio) && (g_ratio <? 0.7) then 6
   else if (0.3 <=? g_ratio) && (g_ratio <? 0.5) then 4
   else 2)%float.

(** Lines 197-206. *)
Definition vocab_band (ttr : Q) : Z :=
  (if ttr >=? 0.9 then 10
   else if (0.7 <=? ttr) && (ttr <? 0.9) then 8
   else if (0.5 <=? ttr) && (ttr <? 0.7) then 6
   else if (0.3 <=? ttr) && (ttr <? 0.5) then 4
   else 2)%float.

(** Lines 173-176: the number of issues, 0 without a checker. *)
Definition count_errors (self : IntroductionScorer) (text : string) : M Z :=
  let errors := 0 in
  match grammar_tool self with
  | Some tool =>
      emit (GrammarCheck text) ;;
      let matches := check tool text in
      ret (Str.len matches)
  | None => ret errors
  end.

(** Lines 178-179. *)
Definition grammar_ratio (errors word_count : Z) : M Q :=
  r <- truediv (inject_Z errors) (inject_Z word_count) ;;
  let errors_per_100 := (r * 100)%Q in
  q <- truediv errors_per_100 10 ;;
  ret (1 - Num.min q 1)%Q.

Definition evaluate_language_grammar (self : IntroductionScorer)
  (text : string) : M Language.t :=
  emit (Invoked LanguageGrammar) ;;
  let words := Str.split text in
  let word_count := Str.len words in
  if word_count =? 0
  then ret {| Language.grammar_score := 0;
              Language.vocabulary_richness_score := 0;
              Language.total := 0 |}
  else
    errors <- count_errors self text ;;
    g_ratio <- grammar_ratio errors word_count ;;
    let grammar_score := grammar_band g_ratio in
    let tokens := map Str.lower words in
    let unique_tokens := Str.distinct tokens in
    ttr <- (if Str.len tokens >? 0
            then truediv (inject_Z unique_tokens) (inject_Z (Str.len tokens))
            else ret 0%Q) ;;
    let vocab_score := vocab_band ttr in
    ret {| Language.grammar_score := grammar_score;
           Language.vocabulary_richness_score := vocab_score;
           Language.total := grammar_score + vocab_score |}.

(** ** Clarity (lines 214-259) *)

Definition fillers : list string :=
  [ "um"; "uh"; "like"; "you know"; "so"; "actually";
    "basically"; "right"; "i mean"; "well"; "kinda";
    "sort of"; "okay"; "hmm"; "ah" ].

(** Lines 244-253. *)
Definition clarity_band (rate_percent : Q) : Z :=
  (if rate_percent <=? 3 then 15
   else if (4 <=? rate_percent) && (rate_percent <=? 6) then 12
   else if (7 <=? rate_percent) && (rate_percent <=? 9) then 9
   else if (10 <=? rate_percent) && (rate_percent <=? 12) then 6
   else 3)%float.

(** Lines 231-240: the tokens that are fillers, and the occurrences of the
    fillers that hold a space. *)
Definition count_fillers (lower_text : string) (words : list string) : Z :=
  let filler_count :=
    fold_left
      (fun acc w => if Str.mem w fillers then acc + 1 else acc) words 0 in
  let multi_word_fillers := filter (fun f => Str.contains " " f) fillers in
  fold_left (fun acc f => acc + Str.count f lower_text)
    multi_word_fillers filler_count.

(** Line 242. *)
Definition filler_rate (filler_count word_count : Z) : M Q :=
  r <- truediv (inject_Z filler_count) (inject_Z word_count) ;;
  ret (r * 100)%Q.

Definition evaluate_clarity (self : IntroductionScorer) (text : string)
  : M Clar.t :=
  emit (Invoked Clarity) ;;
  let lower_text := Str.lower text in
  let words := Str.split lower_text in
  let word_count := Str.len words in
  if word_count =? 0
  then ret {| Clar.filler_word_count := 0;
              Clar.filler_word_rate_percent := 0;
              Clar.score := 15 |}
  else
    let filler_count := count_fillers lower_text words in
    rate_percent <- filler_rate filler_count word_count ;;
    let score := clarity_band rate_percent in
    ret {| Clar.filler_word_count := filler_count;
           Clar.filler_word_rate_percent := Num.round2 rate_percent;
           Clar.score := score |}.

(** ** Engagement (lines 261-288) *)

(** Lines 274-283. *)
Definition engagement_band (p_pos : Q) : Z :=
  (if p_pos >=? 0.9 then 15
   else if (0.7 <=? p_pos) && (p_pos <? 0.9) then 12
   else if (0.5 <=? p_pos) && (p_pos <? 0.7) then 9
   else if (0.3 <=? p_pos) && (p_pos <? 0.5) then 6
   else 3)%float.

Definition evaluate_engagement (self : IntroductionScorer) (text : string)
  : M Engage.t :=
  emit (Invoked Engagement) ;;
  if negb (Str.truthy (Str.strip text))
  then ret {| Engage.sentiment_positive_probability := 0; Engage.score := 3 |}
  else
    emit (PolarityScores text) ;;
    let scores := polarity_scores (vader_analyzer self) text in
    p_pos <- truediv (compound scores + 1)%Q 2 ;;
    let score := engagement_band p_pos in
    ret {| Engage.sentiment_positive_probability := Num.round2 p_pos;
           Engage.score := score |}.

(** ** The aggregator (lines 290-328) *)

(** Lines 296-303. *)
Definition zero_report : Report :=
  {| overall_score := 0;
     content_and_structure :=
       {| Content.salutation_score := 0;
          Content.keyword_must_have_score := 0;
          Content.keyword_good_to_have_score := 0;
          Content.flow_score := 0;
          Content.total := 0 |};
     speech_rate := {| Speech.wpm := 0; Speech.score := 0 |};
     language_and_grammar :=
       {| Language.grammar_score := 0;
          Language.vocabulary_richness_score := 0;
          Language.total := 0 |};
     clarity :=
       {| Clar.filler_word_count := 0;
          Clar.filler_word_rate_percent := 0;
          Clar.score := 0 |};
     engagement :=
       {| Engage.sentiment_positive_probability := 0; Engage.score := 0 |} |}.

Definition calculate_final_score (self : IntroductionScorer) (text : string)
  : M Report :=
  if negb (Str.truthy text) || negb (Str.truthy (Str.strip text))
  then ret zero_report
  else
    content <- evaluate_content_structure self text ;;
    speech <- evaluate_speech_rate self text ;;
    language <- evaluate_language_grammar self text ;;
    clarity <- evaluate_clarity self text ;;
    engagement <- evaluate_engagement self text ;;
    let overall :=
      Content.total content + Speech.score speech + Language.total language
      + Clar.score clarity + Engage.score engagement in
    let overall := Z.max 0 (Z.min 100 overall) in
    ret {| overall_score := overall;
           content_and_structure := content;
           speech_rate := speech;
           language_and_grammar := language;
           clarity := clarity;
           engagement := engagement |}.

(** ** Notions used to state the properties *)

(** [drop n s]: [s[n:]]. *)
Fixpoint drop (n : nat) (s : string) : string :=
  match n, s with
  | O, _ => s
  | S n', String _ s' => drop n' s'
  | S _, EmptyString => EmptyString
  end.

(** [p] occurs in [s] at position [i]. *)
Definition occurs_at (p s : string) (i : nat) : bool :=
  (i <=? String.length s)%nat && prefix p (drop i s).

(** [first_listed s patterns idx]: [idx] is -1 and no pattern occurs in
    [s], or [idx] is the position of the first occurrence of the first
    pattern of the list, in the order of the list, that occurs in [s]. *)
Inductive first_listed (s : string) : list string -> Z -> Prop :=
| first_listed_none : forall patterns,
    (forall p, In p patterns -> Str.contains p s = false) ->
    first_listed s patterns (-1)
| first_listed_hit : forall before p after i,
    (forall q, In q before -> Str.contains q s = false) ->
    occurs_at p s i = true ->
    (forall j, (j < i)%nat -> occurs_at p s j = false) ->
    first_listed s (before ++ p :: after)%list (Z.of_nat i).

(** The reading of the flow heuristic that takes the earliest occurrence
    of any pattern of the list: the least of the positions at which a
    pattern first occurs, -1 when none occurs. *)
Definition earliest_index (patterns : list string) (lower_text : string) : Z :=
  fold_left
    (fun best p =>
       let idx := Str.find p lower_text in
       if idx =? -1 then best
       else if best =? -1 then idx
       else Z.min best idx)
    patterns (-1).

(** The speech-rate bands as the rubric lists them. *)
Inductive speech_band : Type :=
| Above161 | From141To160 | From111To140 | From81To110 | Below81.

Definition in_speech_band (b : speech_band) (wpm : Q) : bool :=
  (match b with
   | Above161 => wpm >? 161
   | From141To160 => (141 <=? wpm) && (wpm <=? 160)
   | From111To140 => (111 <=? wpm) && (wpm <=? 140)
   | From81To110 => (81 <=? wpm) && (wpm <=? 110)
   | Below81 => wpm <? 81
   end)%float.

Definition speech_band_score (b : speech_band) : Z :=
  match b with
  | Above161 => 2
  | From141To160 => 6
  | From111To140 => 10
  | From81To110 => 6
  | Below81 => 2
  end.

(** The words per minute of a text of [word_count] words (line 142). *)
Definition wpm_of (word_count : Z) : Q := (inject_Z word_count / (52 / 60))%Q.

(** The flow heuristic read as taking, for every must-have category and
    for the salutation, the earliest occurrence of any pattern. *)
Definition flow_uses_earliest (text : string) : Prop :=
  let lower_text := Str.lower text in
  (forall k patterns,
      In (k, patterns) must_haves ->
      dict_get (build_indices lower_text) k
      = Some (earliest_index patterns lower_text))
  /\ salutation_index lower_text
     = earliest_index (good_salutations ++ basic_salutations)%list lower_text.

(** The filler rate of a text, in percent and not rounded (lines 224-242). *)
Definition rate_percent_of (text : string) : Q :=
  let lower_text := Str.lower text in
  let words := Str.split lower_text in
  (inject_Z (count_fillers lower_text words) / inject_Z (Str.len words) * 100)%Q.

(** Every category result is within the bound the rubric documents, and a
    total is the sum of the sub-scores reported with it. *)
Definition categories_within (c : Content.t) (s : Speech.t) (l : Language.t)
  (k : Clar.t) (e : Engage.t) : Prop :=
  0 <= Content.total c <= 40
  /\ Content.total c
     = Content.salutation_score c + Content.keyword_must_have_score c
       + Content.keyword_good_to_have_score c + Content.flow_score c
  /\ 0 <= Speech.score s <= 10
  /\ 0 <= Language.total l <= 20
  /\ Language.total l
     = Language.grammar_score l + Language.vocabulary_richness_score l
  /\ 0 <= Clar.score k <= 15
  /\ 0 <= Engage.score e <= 15.

(** The sum of line 311-317 over the categories of a report. *)
Definition category_sum (r : Report) : Z :=
  Content.total (content_and_structure r) + Speech.score (speech_rate r)
  + Language.total (language_and_grammar r) + Clar.score (clarity r)
  + Engage.score (engagement r).

(** Sample inputs. *)

Definition no_checker (c : Q) : IntroductionScorer :=
  {| grammar_tool := None;
     vader_analyzer := {| polarity_scores := fun _ => {| compound := c |} |} |}.

Definition checker_finding (n : nat) (c : Q) : IntroductionScorer :=
  {| grammar_tool :=
       Some {| check := fun _ => repeat {| ruleId := "RULE"; message := "" |} n |};
     vader_analyzer := {| polarity_scores := fun _ => {| compound := c |} |} |}.

(** [n] words. *)
Definition words (n : nat) : string := String.concat " " (repeat "word" n).

(** ** Notions used for the further properties *)

(** The indices the flow heuristic reads from [indices] (lines 111-119). *)
Definition name_index (lower_text : string) : Z :=
  first_found ["name is"; "i am"; "my name"] lower_text.

Definition hobbies_index (lower_text : string) : Z :=
  first_found ["hobby"; "hobbies"; "like to"; "enjoy"; "love to";
               "playing"; "reading"] lower_text.

(** The three orderings that lines 111, 115 and 119 penalize. *)
Definition name_before_salutation (lower_text : string) : bool :=
  negb (salutation_index lower_text =? -1)
  && negb (name_index lower_text =? -1)
  && (name_index lower_text <? salutation_index lower_text).

Definition closing_before_name (lower_text : string) : bool :=
  negb (closing_index lower_text =? -1)
  && negb (name_index lower_text =? -1)
  && (closing_index lower_text <? name_index lower_text).

Definition hobbies_before_name (lower_text : string) : bool :=
  negb (hobbies_index lower_text =? -1)
  && negb (name_index lower_text =? -1)
  && (hobbies_index lower_text <? name_index lower_text).

(** Lines 108-122 with the lookups done: 5 less the penalties, not below
    0. *)
Definition flow_value (lower_text : string) : Z :=
  Z.max 0
    (5 - (if name_before_salutation lower_text then 2 else 0)
       - (if closing_before_name lower_text then 3 else 0)
       - (if hobbies_before_name lower_text then 1 else 0)).

(** The categories of a keyword table one of whose patterns is in the
    text. *)
Definition present (table : list (string * list string)) (lower_text : string)
  : list (string * list string) :=
  filter (fun kv => Str.any_in (snd kv) lower_text) table.

(** The calls a scoring of a transcript with a word makes, in order. *)
Definition calls_of (self : IntroductionScorer) (text : string) : trace :=
  ([Invoked ContentStructure; Invoked SpeechRate; Invoked LanguageGrammar]
   ++ (match grammar_tool self with
       | Some _ => [GrammarCheck text]
       | None => []
       end)
   ++ [Invoked Clarity; Invoked Engagement; PolarityScores text])%list.

(** ** [utils.py] *)

(** [create_radar_chart], lines 78-87: the values plotted, each category
    on a scale of 0 to 10, the first one repeated to close the loop. *)
Definition radar_values (results : Report) : list Q :=
  let content_score :=
    (inject_Z (Content.total (content_and_structure results)) / 4)%Q in
  let speech_score := inject_Z (Speech.score (speech_rate results)) in
  let lang_score :=
    (inject_Z (Language.total (language_and_grammar results)) / 2)%Q in
  let clarity_score := (inject_Z (Clar.score (clarity results)) / 1.5)%Q in
  let eng_score := (inject_Z (Engage.score (engagement results)) / 1.5)%Q in
  let values :=
    [content_score; speech_score; lang_score; clarity_score; eng_score] in
  (values ++ [hd 0%Q values])%list.

Definition content_advice : string :=
  "Content needs improvement. Ensure you include all key details like name, age, family, and hobbies.".

Definition content_praise : string := "Good content coverage.".

Definition pace_advice : string :=
  "Watch your speaking pace. Aim for ~130 words per minute.".

Definition filler_advice : string :=
  "Try to reduce filler words (um, uh, like) to sound more confident.".

Definition enthusiasm_advice : string :=
  "Try to sound more enthusiastic and positive.".

(** [create_pdf_report], lines 184-197: the feedback items of the report. *)
Definition feedback (results : Report) : list string :=
  let feedback := [] in
  let feedback :=
    if Content.total (content_and_structure results) <? 20
    then (feedback ++ [content_advice])%list
    else (feedback ++ [content_praise])%list in
  let feedback :=
    if Speech.score (speech_rate results) <? 6
    then (feedback ++ [pace_advice])%list else feedback in
  let feedback :=
    if Clar.score (clarity results) <? 10
    then (feedback ++ [filler_advice])%list else feedback in
  let feedback :=
    if Engage.score (engagement results) <? 10
    then (feedback ++ [enthusiasm_advice])%list else feedback in
  feedback.

(** [load_language_tool], lines 37-48.  [construct] is the outcome of
    [LanguageTool('en-US')]: the tool, or the message of the exception it
    raised.  The result comes with the lines printed. *)
Definition load_language_tool (construct : string + LanguageTool)
  : option LanguageTool * list string :=
  match construct with
  | inr tool => (Some tool, [])
  | inl e => (None, ["Warning: LanguageTool failed to load: " ++ e])
  end.

(** [IntroductionScorer.__init__], lines 15-17 of [scorer.py]. *)
Definition init (construct : string + LanguageTool)
  (analyzer : SentimentIntensityAnalyzer) : IntroductionScorer :=
  {| grammar_tool := fst (load_language_tool construct);
     vader_analyzer := analyzer |}.

(** The resources of [download_nltk_data], lines 22-28: path and name. *)
Definition resources : list (string * string) :=
  [ ("tokenizers/punkt", "punkt");
    ("tokenizers/punkt_tab", "punkt_tab");
    ("corpora/brown", "brown");
    ("taggers/averaged_perceptron_tagger", "averaged_perceptron_tagger");
    ("sentiment/vader_lexicon.zip", "vader_lexicon") ].

(** NLTK as [download_nltk_data] uses it, over some state of the data
    directory: [data_find st path] tells whether [nltk.data.find(path)]
    returns (it raises [LookupError] otherwise), and [download name st] is
    the state after [nltk.download(name)]. *)
Record Nltk (store : Type) : Type :=
  { data_find : store -> string -> bool;
    download : string -> store -> store }.

Arguments data_find {store} _ _ _.
Arguments download {store} _ _ _.

(** The body of the loop of lines 30-34, on the state and the names
    downloaded so far. *)
Definition download_step {store : Type} (nltk : Nltk store)
  (acc : store * list string) (resource : string * string)
  : store * list string :=
  if data_find nltk (fst acc) (fst resource)
  then acc
  else (download nltk (snd resource) (fst acc),
        (snd acc ++ [snd resource])%list).

(** [download_nltk_data], lines 20-34: the state it leaves and the names
    it downloaded, in order. *)
Definition download_nltk_data {store : Type} (nltk : Nltk store) (st : store)
  : store * list string :=
  fold_left (download_step nltk) resources (st, []).

(** A data directory as the list of the paths present; a download adds the
    path the table pairs with the name. *)
Definition listed_nltk : Nltk (list string) :=
  {| data_find := fun st path => Str.mem path st;
     download := fun name st =>
       match find (fun resource => String.eqb (snd resource) name) resources with
       | Some resource => fst resource :: st
       | None => st
       end |}.

(** ** [app.py] *)



(** ** Strings: white space, [strip] and [split] *)

Lemma isspace_lower_char (c : ascii) :
  Str.isspace (Str.lower_char c) = Str.isspace c.
Proof.
  destruct c as [[] [] [] [] [] [] [] []]; reflexivity.
Qed.

Lemma all_space_lower (s : string) :
  Str.all_space (Str.lower s) = Str.all_space s.
Proof.
  induction s as [|c s IH]; simpl; [reflexivity|].
  now rewrite isspace_lower_char, IH.
Qed.

Lemma lstrip_all_space (s : string) :
  Str.all_space s = true -> Str.lstrip s = "".
Proof.
  induction s as [|c s IH]; simpl; [reflexivity|].
  intros H. apply andb_prop in H as [Hc Hs]. now rewrite Hc; apply IH.
Qed.

Lemma strip_all_space (s : string) :
  Str.all_space s = true -> Str.strip s = "".
Proof.
  intros H. unfold Str.strip. now rewrite lstrip_all_space.
Qed.

Lemma lstrip_head (s : string) :
  Str.all_space s = false ->
  exists c r, Str.lstrip s = String c r /\ Str.isspace c = false.
Proof.
  induction s as [|c s IH]; simpl; [discriminate|].
  destruct (Str.isspace c) eqn:Hc; simpl.
  - exact IH.
  - intros _. now exists c, s.
Qed.

Lemma strip_not_all_space (s : string) :
  Str.all_space s = false -> Str.truthy (Str.strip s) = true.
Proof.
  intros H. destruct (lstrip_head s H) as (c & r & Hl & Hc).
  unfold Str.strip. rewrite Hl. simpl. now rewrite Hc.
Qed.

Lemma truthy_strip (s : string) :
  Str.truthy (Str.strip s) = negb (Str.all_space s).
Proof.
  destruct (Str.all_space s) eqn:H.
  - now rewrite strip_all_space.
  - now rewrite strip_not_all_space.
Qed.

Lemma truthy_snoc (cur : string) (c : ascii) :
  Str.truthy (cur ++ String c "") = true.
Proof. destruct cur; reflexivity. Qed.

Lemma split_from_nil (s cur : string) :
  Str.split_from cur s = [] <->
  Str.truthy cur = false /\ Str.all_space s = true.
Proof.
  revert cur. induction s as [|c s IH]; intros cur; simpl.
  - destruct (Str.truthy cur); split; intros H;
      try discriminate; try (now split); now destruct H.
  - destruct (Str.isspace c) eqn:Hc; simpl.
    + destruct (Str.truthy cur) eqn:Hcur.
      * split; [discriminate | intros [H _]; discriminate].
      * rewrite IH. simpl. tauto.
    + rewrite IH, truthy_snoc. split; [intros [H _] | intros [_ H]]; discriminate.
Qed.

Lemma split_nil (s : string) :
  Str.split s = [] <-> Str.all_space s = true.
Proof. unfold Str.split. rewrite split_from_nil. simpl. tauto. Qed.

Lemma len_nonneg {A : Type} (xs : list A) : 0 <= Str.len xs.
Proof. unfold Str.len. lia. Qed.

Lemma len_split_zero (s : string) :
  (Str.len (Str.split s) =? 0) = Str.all_space s.
Proof.
  destruct (Str.all_space s) eqn:H.
  - apply split_nil in H. now rewrite H.
  - apply Z.eqb_neq. intros E. unfold Str.len in E.
    destruct (Str.split s) eqn:Hs; [|simpl in E; lia].
    apply split_nil in Hs. congruence.
Qed.

(** ** Strings: [find] and [in] *)

Lemma find_from_spec (p s : string) (i : Z) :
  (Str.contains p s = false /\ Str.find_from p s i = -1) \/
  (exists k : nat,
      Str.find_from p s i = i + Z.of_nat k /\
      occurs_at p s k = true /\
      (forall j, (j < k)%nat -> occurs_at p s j = false) /\
      Str.contains p s = true).
Proof.
  revert i. induction s as [|c s IH]; intros i.
  - cbn [Str.find_from Str.contains]. destruct (prefix p "") eqn:Hp.
    + right. exists O. unfold occurs_at. cbn [drop]. rewrite Hp.
      repeat split; [lia | intros j Hj; lia].
    + left. now split.
  - cbn [Str.find_from Str.contains]. destruct (prefix p (String c s)) eqn:Hp.
    + right. exists O. unfold occurs_at. cbn [drop]. rewrite Hp.
      repeat split; [lia | intros j Hj; lia].
    + destruct (IH (i + 1)) as [[Hc Hf] | (k & Hf & Hk & Hmin & Hc)].
      * left. now rewrite Hc, Hf.
      * right. exists (S k). rewrite Hf, Hc. repeat split; [lia | exact Hk |].
        intros [|j] Hj.
        -- unfold occurs_at. cbn [drop]. rewrite Hp. apply andb_false_r.
        -- apply (Hmin j). lia.
Qed.

Lemma find_not_found (p s : string) :
  Str.find p s = -1 <-> Str.contains p s = false.
Proof.
  unfold Str.find.
  destruct (find_from_spec p s 0) as [[Hc Hf] | (k & Hf & _ & _ & Hc)].
  - tauto.
  - rewrite Hf, Hc. split; [lia | discriminate].
Qed.

Lemma find_lower_bound (p s : string) : -1 <= Str.find p s.
Proof.
  unfold Str.find.
  destruct (find_from_spec p s 0) as [[_ Hf] | (k & Hf & _)]; lia.
Qed.

Lemma first_found_first_listed (patterns : list string) (s : string) :
  first_listed s patterns (first_found patterns s).
Proof.
  induction patterns as [|p ps IH]; cbn [first_found].
  - apply first_listed_none. intros p [].
  - unfold Str.find at 1 2.
    destruct (find_from_spec p s 0) as [[Hc Hf] | (k & Hf & Hk & Hmin & Hc)].
    + rewrite Hf. cbn [Z.eqb negb].
      inversion IH as [ps' Hnone Hps Hidx | before q after i Hb Hq Hmin Hps Hidx].
      * apply first_listed_none. intros q [<- | Hq]; auto.
      * apply (first_listed_hit s (p :: before) q after i); auto.
        intros r [<- | Hr]; auto.
    + rewrite Hf. replace (negb (0 + Z.of_nat k =? -1)) with true
        by (symmetry; apply negb_true_iff, Z.eqb_neq; lia).
      apply (first_listed_hit s [] p ps k); auto. intros q [].
Qed.

Lemma occurs_at_contains (p s : string) (i : nat) :
  occurs_at p s i = true -> Str.contains p s = true.
Proof.
  revert i. induction s as [|c s IH]; intros i; unfold occurs_at.
  - destruct i as [|i]; cbn [drop String.length Nat.leb andb Str.contains].
    + intros H. now rewrite H.
    + discriminate.
  - destruct i as [|i]; cbn [drop Str.contains].
    + intros H. apply andb_prop in H as [_ H]. now rewrite H.
    + intros H. rewrite (IH i); [apply orb_true_r|].
      unfold occurs_at. exact H.
Qed.

Lemma find_first_occurrence (p s : string) (i : nat) :
  occurs_at p s i = true ->
  (forall j, (j < i)%nat -> occurs_at p s j = false) ->
  Str.find p s = Z.of_nat i.
Proof.
  intros Hi Hmin. unfold Str.find.
  destruct (find_from_spec p s 0) as [[Hc _] | (k & Hf & Hk & Hkmin & _)].
  - apply occurs_at_contains in Hi. congruence.
  - rewrite Hf. destruct (Nat.lt_trichotomy i k) as [Hlt | [-> | Hgt]].
    + specialize (Hkmin i Hlt). congruence.
    + lia.
    + specialize (Hmin k Hgt). congruence.
Qed.

Lemma first_found_absent (patterns : list string) (s : string) :
  (forall p, In p patterns -> Str.contains p s = false) ->
  first_found patterns s = -1.
Proof.
  induction patterns as [|p ps IH]; intros H; cbn [first_found];
    [reflexivity|].
  rewrite (proj2 (find_not_found p s)) by (apply H; now left).
  cbn [Z.eqb negb]. apply IH. intros q Hq. apply H. now right.
Qed.

Lemma first_found_skip (before rest : list string) (s : string) :
  (forall q, In q before -> Str.contains q s = false) ->
  first_found (before ++ rest)%list s = first_found rest s.
Proof.
  induction before as [|p ps IH]; intros H; [reflexivity|].
  cbn [app first_found].
  rewrite (proj2 (find_not_found p s)) by (apply H; now left).
  cbn [Z.eqb negb]. apply IH. intros q Hq. apply H. now right.
Qed.

(** [first_listed] holds of one index only, the one the loops compute. *)
Lemma first_listed_first_found (patterns : list string) (s : string) (idx : Z) :
  first_listed s patterns idx -> first_found patterns s = idx.
Proof.
  intros H. destruct H as [ps Hnone | before p after i Hb Hi Hmin].
  - now apply first_found_absent.
  - rewrite (first_found_skip before (p :: after) s Hb). cbn [first_found].
    rewrite (find_first_occurrence p s i Hi Hmin).
    replace (negb (Z.of_nat i =? -1)) with true; [reflexivity|].
    symmetry. apply negb_true_iff, Z.eqb_neq. lia.
Qed.

Lemma prefix_lower (p s : string) :
  prefix p s = true -> prefix (Str.lower p) (Str.lower s) = true.
Proof.
  revert s. induction p as [|a p IH]; intros s; [now destruct s|].
  destruct s as [|c s]; [discriminate|]. cbn [prefix Str.lower].
  destruct (ascii_dec a c) as [E|]; [subst c | discriminate].
  intros H. destruct (ascii_dec (Str.lower_char a) (Str.lower_char a));
    [auto | congruence].
Qed.

Lemma contains_lower (p s : string) :
  Str.contains p s = true -> Str.contains (Str.lower p) (Str.lower s) = true.
Proof.
  induction s as [|c s IH]; cbn [Str.contains Str.lower]; intros H;
    apply orb_true_iff in H as [H | H]; try discriminate;
    apply orb_true_iff.
  - left. now apply (prefix_lower p "").
  - left. now apply (prefix_lower p (String c s)).
  - right. auto.
Qed.

(** ** Computations *)

Lemma bind_ok {A B : Type} (m : M A) (k : A -> M B) a tr v tr' :
  m = (inr a, tr) -> k a = (v, tr') -> bind m k = (v, (tr ++ tr')%list).
Proof. intros Hm Hk. unfold bind. rewrite Hm, Hk. reflexivity. Qed.

Lemma fst_bind {A B : Type} (m : M A) (k : A -> M B) :
  fst (bind m k) =
  match fst m with inl e => inl e | inr a => fst (k a) end.
Proof.
  destruct m as [[e | a] tr]; [reflexivity|].
  cbn. destruct (k a) as [v tr']. reflexivity.
Qed.

Lemma truediv_ok (a b : Q) :
  Qeq_bool b 0 = false -> truediv a b = (inr (a / b)%Q, []).
Proof. intros H. unfold truediv. now rewrite H. Qed.

Lemma inject_Z_nonzero (n : Z) : n <> 0 -> Qeq_bool (inject_Z n) 0 = false.
Proof.
  intros H. apply not_true_is_false. intros E. apply Qeq_bool_iff in E.
  unfold Qeq in E. simpl in E. lia.
Qed.

(** ** The band mappings *)

Ltac bands :=
  repeat match goal with
         | |- context [if ?b then _ else _] => destruct b
         end;
  lia.

Lemma salutation_range (lt : string) : 0 <= salutation lt <= 5.
Proof. unfold salutation. bands. Qed.

Lemma speech_rate_score_range (wpm : Q) : 2 <= speech_rate_score wpm <= 10.
Proof. unfold speech_rate_score. bands. Qed.

Lemma grammar_band_range (g : Q) : 2 <= grammar_band g <= 10.
Proof. unfold grammar_band. bands. Qed.

Lemma vocab_band_range (ttr : Q) : 2 <= vocab_band ttr <= 10.
Proof. unfold vocab_band. bands. Qed.

Lemma clarity_band_range (rate : Q) : 3 <= clarity_band rate <= 15.
Proof. unfold clarity_band. bands. Qed.

Lemma engagement_band_range (p : Q) : 3 <= engagement_band p <= 15.
Proof. unfold engagement_band. bands. Qed.

Lemma keyword_points_fold (points : Z) (table : list (string * list string))
  (lt : string) (acc : Z) :
  0 <= points ->
  acc <= fold_left
           (fun acc kv =>
              if Str.any_in (snd kv) lt then acc + points else acc)
           table acc
      <= acc + points * Str.len table.
Proof.
  intros Hp. revert acc. unfold Str.len.
  induction table as [|kv table IH]; intros acc; cbn [fold_left List.length].
  - lia.
  - destruct (Str.any_in (snd kv) lt).
    + specialize (IH (acc + points)). nia.
    + specialize (IH acc). nia.
Qed.

Lemma keyword_points_range (points : Z) (table : list (string * list string))
  (lt : string) :
  0 <= points ->
  0 <= keyword_points points table lt <= points * Str.len table.
Proof.
  intros Hp. unfold keyword_points.
  pose proof (keyword_points_fold points table lt 0 Hp). lia.
Qed.

(** ** The evaluators return *)

Lemma getitem_name (lt : string) :
  getitem (build_indices lt) "Name"
  = ret (first_found ["name is"; "i am"; "my name"] lt).
Proof. reflexivity. Qed.

Lemma getitem_hobbies (lt : string) :
  getitem (build_indices lt) "Hobbies"
  = ret (first_found ["hobby"; "hobbies"; "like to"; "enjoy"; "love to";
                      "playing"; "reading"] lt).
Proof. reflexivity. Qed.

Lemma flow_returns (lt : string) :
  exists z, flow lt = (inr z, []) /\ 0 <= z <= 5.
Proof.
  unfold flow. cbv zeta. rewrite getitem_name, getitem_hobbies.
  generalize (first_found ["name is"; "i am"; "my name"] lt)
             (first_found ["hobby"; "hobbies"; "like to"; "enjoy"; "love to";
                           "playing"; "reading"] lt)
             (salutation_index lt) (closing_index lt).
  intros n h sal clo.
  unfold and_then, bind, ret.
  destruct (sal =? -1), (n =? -1), (clo =? -1), (h =? -1), (n <? sal),
    (clo <? n), (h <? n); cbn; eexists; (split; [reflexivity | lia]).
Qed.

Lemma content_returns (self : IntroductionScorer) (text : string) :
  exists r,
    evaluate_content_structure self text = (inr r, [Invoked ContentStructure])
    /\ Content.salutation_score r = salutation (Str.lower text)
    /\ 0 <= Content.keyword_must_have_score r <= 20
    /\ 0 <= Content.keyword_good_to_have_score r <= 10
    /\ 0 <= Content.flow_score r <= 5
    /\ Content.total r
       = Content.salutation_score r + Content.keyword_must_have_score r
         + Content.keyword_good_to_have_score r + Content.flow_score r.
Proof.
  destruct (flow_returns (Str.lower text)) as (z & Hz & Hrange).
  unfold evaluate_content_structure. cbv zeta.
  eexists. split.
  - apply (bind_ok _ _ tt [Invoked ContentStructure] _ []); [reflexivity|].
    apply (bind_ok _ _ z [] _ []); [exact Hz | reflexivity].
  - cbn [Content.salutation_score Content.keyword_must_have_score
         Content.keyword_good_to_have_score Content.flow_score Content.total].
    pose proof (keyword_points_range 4 must_haves (Str.lower text)).
    pose proof (keyword_points_range 2 good_to_haves (Str.lower text)).
    repeat split; lia.
Qed.

Lemma speech_returns (self : IntroductionScorer) (text : string) :
  evaluate_speech_rate self text
  = (inr {| Speech.wpm := Num.int (wpm_of (Str.len (Str.split text)));
            Speech.score :=
              speech_rate_score (wpm_of (Str.len (Str.split text))) |},
     [Invoked SpeechRate]).
Proof. reflexivity. Qed.

Lemma count_errors_returns (self : IntroductionScorer) (text : string) :
  exists e tr, count_errors self text = (inr e, tr) /\ 0 <= e.
Proof.
  unfold count_errors. destruct (grammar_tool self) as [tool|].
  - exists (Str.len (check tool text)), [GrammarCheck text].
    split; [reflexivity | apply len_nonneg].
  - exists 0, []. split; [reflexivity | lia].
Qed.

Lemma grammar_ratio_returns (errors word_count : Z) :
  word_count <> 0 ->
  grammar_ratio errors word_count
  = (inr (1 - Num.min (inject_Z errors / inject_Z word_count * 100 / 10) 1)%Q,
     []).
Proof.
  intros H. unfold grammar_ratio.
  eapply (bind_ok _ _ _ [] _ []); [apply truediv_ok, inject_Z_nonzero, H|].
  reflexivity.
Qed.

Lemma ttr_returns (unique_tokens n : Z) :
  exists ttr,
    (if n >? 0
     then truediv (inject_Z unique_tokens) (inject_Z n)
     else ret 0%Q) = (inr ttr, []).
Proof.
  destruct (n >? 0) eqn:Hn.
  - eexists. apply truediv_ok, inject_Z_nonzero. lia.
  - now exists 0%Q.
Qed.

Lemma language_returns (self : IntroductionScorer) (text : string) :
  exists r tr,
    evaluate_language_grammar self text = (inr r, tr)
    /\ 0 <= Language.grammar_score r <= 10
    /\ 0 <= Language.vocabulary_richness_score r <= 10
    /\ Language.total r
       = Language.grammar_score r + Language.vocabulary_richness_score r
    /\ (Str.all_space text = false ->
        2 <= Language.grammar_score r
        /\ 2 <= Language.vocabulary_richness_score r).
Proof.
  unfold evaluate_language_grammar. cbv zeta.
  pose proof (len_split_zero text) as Hz.
  destruct (Str.len (Str.split text) =? 0) eqn:Hwc.
  - do 2 eexists. split; [reflexivity|]. cbn. rewrite <- Hz.
    repeat split; try lia; discriminate.
  - apply Z.eqb_neq in Hwc.
    destruct (count_errors_returns self text) as (e & tr & He & _).
    destruct (ttr_returns (Str.distinct (map Str.lower (Str.split text)))
                (Str.len (map Str.lower (Str.split text)))) as (ttr & Httr).
    do 2 eexists. split.
    + eapply (bind_ok _ _ tt [Invoked LanguageGrammar]); [reflexivity|].
      eapply (bind_ok _ _ e tr); [exact He|].
      eapply (bind_ok _ _ _ []); [apply grammar_ratio_returns, Hwc|].
      eapply (bind_ok _ _ ttr [] _ []); [exact Httr | reflexivity].
    + cbn [Language.grammar_score Language.vocabulary_richness_score
           Language.total].
      match goal with
      | |- context [grammar_band ?g] => pose proof (grammar_band_range g)
      end.
      pose proof (vocab_band_range ttr).
      repeat split; lia.
Qed.

Lemma filler_rate_returns (filler_count word_count : Z) :
  word_count <> 0 ->
  filler_rate filler_count word_count
  = (inr (inject_Z filler_count / inject_Z word_count * 100)%Q, []).
Proof.
  intros H. unfold filler_rate.
  eapply (bind_ok _ _ _ [] _ []); [apply truediv_ok, inject_Z_nonzero, H|].
  reflexivity.
Qed.

Lemma clarity_blank (self : IntroductionScorer) (text : string) :
  Str.all_space text = true ->
  evaluate_clarity self text
  = (inr {| Clar.filler_word_count := 0;
            Clar.filler_word_rate_percent := 0;
            Clar.score := 15 |},
     [Invoked Clarity]).
Proof.
  intros H. unfold evaluate_clarity. cbv zeta.
  now rewrite len_split_zero, all_space_lower, H.
Qed.

Lemma clarity_words (self : IntroductionScorer) (text : string) :
  Str.all_space text = false ->
  exists r,
    evaluate_clarity self text = (inr r, [Invoked Clarity])
    /\ Clar.score r = clarity_band (rate_percent_of text).
Proof.
  intros H. unfold evaluate_clarity. cbv zeta.
  pose proof (len_split_zero (Str.lower text)) as Hz.
  rewrite all_space_lower, H in Hz. rewrite Hz.
  apply Z.eqb_neq in Hz.
  eexists. split.
  - eapply (bind_ok _ _ tt [Invoked Clarity] _ []); [reflexivity|].
    eapply (bind_ok _ _ _ [] _ []); [apply filler_rate_returns, Hz|].
    reflexivity.
  - reflexivity.
Qed.

Lemma clarity_returns (self : IntroductionScorer) (text : string) :
  exists r,
    evaluate_clarity self text = (inr r, [Invoked Clarity])
    /\ 3 <= Clar.score r <= 15.
Proof.
  destruct (Str.all_space text) eqn:H.
  - eexists. split; [apply clarity_blank, H | cbn; lia].
  - destruct (clarity_words self text H) as (r & Hr & Hs).
    exists r. split; [exact Hr|]. rewrite Hs. apply clarity_band_range.
Qed.

Lemma engagement_blank (self : IntroductionScorer) (text : string) :
  Str.all_space text = true ->
  evaluate_engagement self text
  = (inr {| Engage.sentiment_positive_probability := 0; Engage.score := 3 |},
     [Invoked Engagement]).
Proof.
  intros H. unfold evaluate_engagement. now rewrite truthy_strip, H.
Qed.

Lemma engagement_words (self : IntroductionScorer) (text : string) :
  Str.all_space text = false ->
  evaluate_engagement self text
  = (let p_pos :=
       ((compound (polarity_scores (vader_analyzer self) text) + 1) / 2)%Q in
     inr {| Engage.sentiment_positive_probability := Num.round2 p_pos;
            Engage.score := engagement_band p_pos |},
     [Invoked Engagement; PolarityScores text]).
Proof.
  intros H. unfold evaluate_engagement. now rewrite truthy_strip, H.
Qed.

Lemma engagement_returns (self : IntroductionScorer) (text : string) :
  exists r tr,
    evaluate_engagement self text = (inr r, tr)
    /\ 3 <= Engage.score r <= 15.
Proof.
  destruct (Str.all_space text) eqn:H.
  - do 2 eexists. split; [apply engagement_blank, H | cbn; lia].
  - do 2 eexists. split; [apply engagement_words, H|].
    cbn. apply engagement_band_range.
Qed.

(** ** The aggregator returns *)

Lemma blank_guard (text : string) :
  negb (Str.truthy text) || negb (Str.truthy (Str.strip text))
  = Str.all_space text.
Proof.
  rewrite truthy_strip, negb_involutive.
  destruct text; [reflexivity|]. reflexivity.
Qed.

Lemma final_blank (self : IntroductionScorer) (text : string) :
  Str.all_space text = true ->
  calculate_final_score self text = (inr zero_report, []).
Proof.
  intros H. unfold calculate_final_score. now rewrite blank_guard, H.
Qed.

Lemma final_words (self : IntroductionScorer) (text : string)
  c s l k e t1 t2 t3 t4 t5 :
  Str.all_space text = false ->
  evaluate_content_structure self text = (inr c, t1) ->
  evaluate_speech_rate self text = (inr s, t2) ->
  evaluate_language_grammar self text = (inr l, t3) ->
  evaluate_clarity self text = (inr k, t4) ->
  evaluate_engagement self text = (inr e, t5) ->
  calculate_final_score self text
  = (inr {| overall_score :=
              Z.max 0
                (Z.min 100
                   (Content.total c + Speech.score s + Language.total l
                    + Clar.score k + Engage.score e));
            content_and_structure := c;
            speech_rate := s;
            language_and_grammar := l;
            clarity := k;
            engagement := e |},
     (t1 ++ t2 ++ t3 ++ t4 ++ t5)%list).
Proof.
  intros H Hc Hs Hl Hk He. unfold calculate_final_score.
  rewrite blank_guard, H.
  eapply (bind_ok _ _ c t1); [exact Hc|].
  eapply (bind_ok _ _ s t2); [exact Hs|].
  eapply (bind_ok _ _ l t3); [exact Hl|].
  eapply (bind_ok _ _ k t4); [exact Hk|].
  rewrite <- (app_nil_r t5).
  eapply (bind_ok _ _ e t5 _ []); [exact He | reflexivity].
Qed.

Lemma final_returns (self : IntroductionScorer) (text : string) :
  exists r tr,
    calculate_final_score self text = (inr r, tr)
    /\ overall_score r = Z.max 0 (Z.min 100 (category_sum r))
    /\ categories_within (content_and_structure r) (speech_rate r)
         (language_and_grammar r) (clarity r) (engagement r)
    /\ (Str.all_space text = true -> r = zero_report /\ tr = [])
    /\ (Str.all_space text = false ->
        2 <= Speech.score (speech_rate r)
        /\ 4 <= Language.total (language_and_grammar r)
        /\ 3 <= Clar.score (clarity r)
        /\ 3 <= Engage.score (engagement r)).
Proof.
  destruct (Str.all_space text) eqn:H.
  - exists zero_report, []. split; [apply final_blank, H|].
    unfold categories_within. cbn. repeat split; try lia; discriminate.
  - destruct (content_returns self text) as (c & Hc & Hsal & Hm & Hg & Hf & Ht).
    destruct (language_returns self text) as (l & t3 & Hl & Hlg & Hlv & Hlt & Hl2).
    destruct (clarity_returns self text) as (k & Hk & Hkr).
    destruct (engagement_returns self text) as (e & t5 & He & Her).
    pose proof (speech_returns self text) as Hs.
    pose proof (speech_rate_score_range (wpm_of (Str.len (Str.split text)))).
    pose proof (salutation_range (Str.lower text)).
    destruct (Hl2 H) as [Hl3 Hl4].
    do 2 eexists. split; [exact (final_words self text _ _ _ _ _ _ _ _ _ _ H Hc Hs Hl Hk He)|].
    unfold categories_within, category_sum. cbn.
    repeat split; try lia; discriminate.
Qed.

(** ** The report *)

(** C1.  For every transcript the entry point returns a report whose
    [overall_score] is the sum of the five category outputs of that report
    (content total, speech score, language total, clarity score and
    engagement score) clamped to the range 0 to 100; so the overall score
    always lies between 0 and 100. *)
Theorem overall_score_clamped_sum (self : IntroductionScorer) (text : string) :
  exists r tr,
    calculate_final_score self text = (inr r, tr)
    /\ overall_score r
       = Z.max 0
           (Z.min 100
              (Content.total (content_and_structure r)
               + Speech.score (speech_rate r)
               + Language.total (language_and_grammar r)
               + Clar.score (clarity r)
               + Engage.score (engagement r)))
    /\ 0 <= overall_score r <= 100.
Proof.
  destruct (final_returns self text) as (r & tr & Hr & Ho & _).
  exists r, tr. split; [exact Hr|]. unfold category_sum in Ho.
  split; [exact Ho | lia].
Qed.

(** The clamp of line 319 never changes the sum: the category bounds add
    up to 100. *)
Lemma overall_score_is_sum (self : IntroductionScorer) (text : string) :
  exists r tr,
    calculate_final_score self text = (inr r, tr)
    /\ overall_score r = category_sum r.
Proof.
  destruct (final_returns self text) as (r & tr & Hr & Ho & Hw & _).
  exists r, tr. split; [exact Hr|].
  unfold categories_within in Hw. unfold category_sum in *. lia.
Qed.

(** C2.  For an empty or white-space-only transcript the entry point
    returns the report whose overall score and every sub-score are 0, and
    it makes no call at all: no evaluator is entered and no collaborator
    is asked.  The clarity evaluator on the same transcript gives score 15
    and the engagement evaluator gives score 3; neither value is in the
    returned report. *)
Theorem blank_transcript_all_zero (self : IntroductionScorer) (text : string) :
  Str.all_space text = true ->
  (exists r,
      calculate_final_score self text = (inr r, [])
      /\ overall_score r = 0
      /\ Content.salutation_score (content_and_structure r) = 0
      /\ Content.keyword_must_have_score (content_and_structure r) = 0
      /\ Content.keyword_good_to_have_score (content_and_structure r) = 0
      /\ Content.flow_score (content_and_structure r) = 0
      /\ Content.total (content_and_structure r) = 0
      /\ Speech.wpm (speech_rate r) = 0
      /\ Speech.score (speech_rate r) = 0
      /\ Language.grammar_score (language_and_grammar r) = 0
      /\ Language.vocabulary_richness_score (language_and_grammar r) = 0
      /\ Language.total (language_and_grammar r) = 0
      /\ Clar.filler_word_count (clarity r) = 0
      /\ Clar.filler_word_rate_percent (clarity r) = 0%Q
      /\ Clar.score (clarity r) = 0
      /\ Engage.sentiment_positive_probability (engagement r) = 0%Q
      /\ Engage.score (engagement r) = 0)
  /\ (exists k,
         evaluate_clarity self text = (inr k, [Invoked Clarity])
         /\ Clar.score k = 15)
  /\ (exists e,
         evaluate_engagement self text = (inr e, [Invoked Engagement])
         /\ Engage.score e = 3).
Proof.
  intros H. split; [|split].
  - exists zero_report. split; [apply final_blank, H|].
    cbn. repeat split.
  - eexists. split; [apply clarity_blank, H | reflexivity].
  - eexists. split; [apply engagement_blank, H | reflexivity].
Qed.

Lemma blank_transcript_all_zero_witness :
  Str.all_space "  " = true
  /\ exists r,
      calculate_final_score (checker_finding 3 0.8) "  " = (inr r, [])
      /\ overall_score r = 0
      /\ Clar.score (clarity r) = 0
      /\ Engage.score (engagement r) = 0.
Proof.
  split; [reflexivity|].
  destruct (blank_transcript_all_zero (checker_finding 3 0.8) "  " eq_refl)
    as [(r & Hr & Ho & H) _].
  exists r. repeat split; [exact Hr | exact Ho | apply H | apply H].
Defined.

(** C7.  For every transcript each category result is within its
    documented bound: content total between 0 and 40, speech-rate score
    between 0 and 10, language total between 0 and 20, clarity score
    between 0 and 15, engagement score between 0 and 15; and a category's
    total is the sum of its sub-scores.  This holds of what each evaluator
    returns and of the categories of the report. *)
Theorem category_results_within_bounds (self : IntroductionScorer)
  (text : string) :
  (exists c s l k e t1 t2 t3 t4 t5,
      evaluate_content_structure self text = (inr c, t1)
      /\ evaluate_speech_rate self text = (inr s, t2)
      /\ evaluate_language_grammar self text = (inr l, t3)
      /\ evaluate_clarity self text = (inr k, t4)
      /\ evaluate_engagement self text = (inr e, t5)
      /\ categories_within c s l k e)
  /\ (exists r tr,
         calculate_final_score self text = (inr r, tr)
         /\ categories_within (content_and_structure r) (speech_rate r)
              (language_and_grammar r) (clarity r) (engagement r)).
Proof.
  split.
  - destruct (content_returns self text) as (c & Hc & Hsal & Hm & Hg & Hf & Ht).
    destruct (language_returns self text) as (l & t3 & Hl & Hlg & Hlv & Hlt & _).
    destruct (clarity_returns self text) as (k & Hk & Hkr).
    destruct (engagement_returns self text) as (e & t5 & He & Her).
    pose proof (speech_rate_score_range (wpm_of (Str.len (Str.split text)))).
    pose proof (salutation_range (Str.lower text)).
    exists c. eexists. exists l, k, e. do 2 eexists. exists t3. eexists.
    exists t5.
    repeat (split; [eassumption || apply speech_returns|]).
    unfold categories_within. cbn. repeat split; lia.
  - destruct (final_returns self text) as (r & tr & Hr & _ & Hw & _).
    now exists r, tr.
Qed.

(** C9.  For every transcript with at least one character that is not
    white space the overall score is at least 12: in the report the
    speech-rate score is at least 2, the language total at least 4, the
    clarity score at least 3 and the engagement score at least 3. *)
Theorem nonblank_overall_at_least_12 (self : IntroductionScorer)
  (text : string) :
  Str.all_space text = false ->
  exists r tr,
    calculate_final_score self text = (inr r, tr)
    /\ 12 <= overall_score r
    /\ 2 <= Speech.score (speech_rate r)
    /\ 4 <= Language.total (language_and_grammar r)
    /\ 3 <= Clar.score (clarity r)
    /\ 3 <= Engage.score (engagement r).
Proof.
  intros H.
  destruct (final_returns self text) as (r & tr & Hr & Ho & Hw & _ & Hlow).
  destruct (Hlow H) as (Hs & Hl & Hk & He).
  exists r, tr. split; [exact Hr|].
  unfold categories_within in Hw. unfold category_sum in Ho.
  repeat split; lia.
Qed.

Lemma nonblank_overall_at_least_12_witness :
  Str.all_space "x" = false
  /\ exists r tr,
      calculate_final_score (no_checker (-1)) "x" = (inr r, tr)
      /\ 12 <= overall_score r.
Proof.
  split; [reflexivity|].
  destruct (nonblank_overall_at_least_12 (no_checker (-1)) "x" eq_refl)
    as (r & tr & Hr & Ho & _).
  now exists r, tr.
Defined.

(** ** Speech rate *)

Lemma leb_true (x y : Q) : Num.leb x y = true <-> (x <= y)%Q.
Proof. apply Qle_bool_iff. Qed.

Lemma leb_false (x y : Q) : Num.leb x y = false <-> (y < x)%Q.
Proof.
  unfold Num.leb. rewrite <- not_true_iff_false, Qle_bool_iff.
  split; [apply Qnot_le_lt | apply Qlt_not_le].
Qed.

Lemma ltb_true (x y : Q) : Num.ltb x y = true <-> (x < y)%Q.
Proof. unfold Num.ltb. rewrite negb_true_iff. apply leb_false. Qed.

Lemma ltb_false (x y : Q) : Num.ltb x y = false <-> (y <= x)%Q.
Proof. unfold Num.ltb. rewrite negb_false_iff. apply leb_true. Qed.

(** Turns the comparisons of a goal and of its hypotheses into
    inequalities of [Q]. *)
Ltac compare_all :=
  repeat match goal with
         | H : _ && _ = true |- _ => apply andb_prop in H; destruct H
         | H : _ && _ = false |- _ => apply andb_false_iff in H; destruct H
         | H : Num.leb _ _ = true |- _ => apply leb_true in H
         | H : Num.leb _ _ = false |- _ => apply leb_false in H
         | H : Num.ltb _ _ = true |- _ => apply ltb_true in H
         | H : Num.ltb _ _ = false |- _ => apply ltb_false in H
         end.

(** No value is in two bands. *)
Lemma speech_bands_disjoint (wpm : Q) (b1 b2 : speech_band) :
  in_speech_band b1 wpm = true -> in_speech_band b2 wpm = true -> b1 = b2.
Proof.
  destruct b1, b2; cbn [in_speech_band]; intros H1 H2;
    try reflexivity; compare_all; lra.
Qed.

(** Where a band holds the value, the score is the band's. *)
Lemma speech_score_of_band (wpm : Q) (b : speech_band) :
  in_speech_band b wpm = true -> speech_rate_score wpm = speech_band_score b.
Proof.
  unfold speech_rate_score.
  destruct b; cbn [in_speech_band speech_band_score]; intros H;
    repeat match goal with
           | |- context [if ?c then _ else _] => destruct c eqn:?
           end;
    try reflexivity; compare_all; lra.
Qed.

Lemma wpm_of_fraction (word_count : Z) :
  wpm_of word_count = (word_count * 60 # 52)%Q.
Proof. reflexivity. Qed.

Lemma wpm_compare (n word_count : Z) :
  ((inject_Z n <= wpm_of word_count)%Q <-> n * 13 <= word_count * 15)
  /\ ((wpm_of word_count <= inject_Z n)%Q <-> word_count * 15 <= n * 13)
  /\ ((inject_Z n < wpm_of word_count)%Q <-> n * 13 < word_count * 15)
  /\ ((wpm_of word_count < inject_Z n)%Q <-> word_count * 15 < n * 13).
Proof.
  rewrite wpm_of_fraction. unfold Qle, Qlt, inject_Z, Qnum, Qden.
  repeat split; lia.
Qed.

(** Membership of a band, on the word count. *)
Lemma in_speech_band_words (b : speech_band) (word_count : Z) :
  in_speech_band b (wpm_of word_count) = true <->
  match b with
  | Above161 => 161 * 13 < word_count * 15
  | From141To160 => 141 * 13 <= word_count * 15 <= 160 * 13
  | From111To140 => 111 * 13 <= word_count * 15 <= 140 * 13
  | From81To110 => 81 * 13 <= word_count * 15 <= 110 * 13
  | Below81 => word_count * 15 < 81 * 13
  end.
Proof.
  destruct b; cbn [in_speech_band];
    rewrite ?andb_true_iff, ?leb_true, ?ltb_true.
  - apply (wpm_compare 161).
  - now rewrite (proj1 (wpm_compare 141 word_count)),
      (proj1 (proj2 (wpm_compare 160 word_count))).
  - now rewrite (proj1 (wpm_compare 111 word_count)),
      (proj1 (proj2 (wpm_compare 140 word_count))).
  - now rewrite (proj1 (wpm_compare 81 word_count)),
      (proj1 (proj2 (wpm_compare 110 word_count))).
  - apply (wpm_compare 81).
Qed.

(** The word counts whose rate is in no band. *)
Lemma speech_bands_gaps (word_count : Z) :
  (forall b, in_speech_band b (wpm_of word_count) = false)
  <-> word_count = 96 \/ word_count = 122 \/ word_count = 139.
Proof.
  split.
  - intros H.
    pose proof (H Above161) as H1. pose proof (H From141To160) as H2.
    pose proof (H From111To140) as H3. pose proof (H From81To110) as H4.
    pose proof (H Below81) as H5.
    rewrite <- not_true_iff_false, in_speech_band_words in H1, H2, H3, H4, H5.
    lia.
  - intros H b. rewrite <- not_true_iff_false, in_speech_band_words.
    destruct b; lia.
Qed.

(** The rate of a whole number of words is never nearer than 1/13 to an
    edge of a band, so the rounding of the floats cannot move it across an
    edge. *)
Lemma wpm_clear_of_band_edges (word_count n : Z) :
  In n [81; 110; 111; 140; 141; 160; 161] ->
  (wpm_of word_count + (1 # 13) <= inject_Z n
   \/ inject_Z n + (1 # 13) <= wpm_of word_count)%Q.
Proof.
  intros H. rewrite wpm_of_fraction.
  unfold Qle, Qplus, inject_Z, Qnum, Qden.
  cbn [In] in H.
  assert (word_count * 15 + 1 <= n * 13 \/ n * 13 + 1 <= word_count * 15)
    as [Hlt | Hgt] by lia; [left | right]; lia.
Qed.

(** C3.  A transcript of 96 words has a rate of 1440/13, about 110.77 words
    per minute, which is in none of the five bands; the evaluator returns
    the score 2 of its last branch for it. *)
Theorem speech_rate_of_96_words_in_no_band (self : IntroductionScorer) :
  evaluate_speech_rate self (words 96)
  = (inr {| Speech.wpm := 110; Speech.score := 2 |}, [Invoked SpeechRate])
  /\ Str.len (Str.split (words 96)) = 96
  /\ (110 < wpm_of 96 < 111)%Q
  /\ forall b, in_speech_band b (wpm_of 96) = false.
Proof.
  split; [vm_compute; reflexivity|].
  split; [vm_compute; reflexivity|].
  split; [split; reflexivity|].
  intros b. destruct b; reflexivity.
Qed.

(** ** Clarity *)

Lemma clarity_band_gap (rate : Q) :
  (3 < rate < 4 \/ 6 < rate < 7 \/ 9 < rate < 10)%Q -> clarity_band rate = 3.
Proof.
  intros H. unfold clarity_band.
  repeat match goal with
         | |- context [if ?c then _ else _] => destruct c eqn:?
         end;
    try reflexivity; compare_all; lra.
Qed.

(** C4.  For every transcript that has a word and whose filler rate in
    percent, not rounded, lies strictly between 3 and 4, between 6 and 7 or
    between 9 and 10, the clarity score is 3, the score of the last
    branch. *)
Theorem clarity_rate_between_bands_scores_3 (self : IntroductionScorer)
  (text : string) :
  Str.all_space text = false ->
  (3 < rate_percent_of text < 4
   \/ 6 < rate_percent_of text < 7
   \/ 9 < rate_percent_of text < 10)%Q ->
  exists r,
    evaluate_clarity self text = (inr r, [Invoked Clarity])
    /\ Clar.score r = 3.
Proof.
  intros H Hgap. destruct (clarity_words self text H) as (r & Hr & Hs).
  exists r. split; [exact Hr|]. rewrite Hs. now apply clarity_band_gap.
Qed.

Lemma clarity_rate_between_bands_scores_3_witness :
  Str.all_space ("um " ++ words 28) = false
  /\ (3 < rate_percent_of ("um " ++ words 28) < 4)%Q
  /\ exists r,
      evaluate_clarity (no_checker 0) ("um " ++ words 28)
      = (inr r, [Invoked Clarity])
      /\ Clar.score r = 3.
Proof.
  split; [reflexivity|]. split; [split; vm_compute; reflexivity|].
  apply clarity_rate_between_bands_scores_3; [reflexivity|].
  left. split; vm_compute; reflexivity.
Defined.

(** Seven fillers in 200 words: a rate of exactly 3.5 scores 3, not 12. *)
Example clarity_rate_3_5_scores_3 :
  (rate_percent_of ("um um um um um um um " ++ words 193) == 3.5)%Q
  /\ evaluate_clarity (no_checker 0) ("um um um um um um um " ++ words 193)
     = (inr {| Clar.filler_word_count := 7;
               Clar.filler_word_rate_percent := Num.round2 (700 # 200);
               Clar.score := 3 |},
        [Invoked Clarity]).
Proof. split; vm_compute; reflexivity. Qed.

(** ** Grammar without a checker *)

Lemma no_errors_ratio (word_count : Z) :
  0 < word_count ->
  (1 - Num.min (inject_Z 0 / inject_Z word_count * 100 / 10) 1 == 1)%Q.
Proof.
  intros H.
  assert (Hq : (inject_Z 0 / inject_Z word_count * 100 / 10 == 0)%Q)
    by (unfold Qeq; cbn; lia).
  unfold Num.min.
  destruct (Num.ltb 1 (inject_Z 0 / inject_Z word_count * 100 / 10)) eqn:Hlt.
  - apply ltb_true in Hlt. rewrite Hq in Hlt. lra.
  - rewrite Hq. lra.
Qed.

(** C5.  For every transcript with a word, when the grammar checker is
    absent the language evaluator counts 0 errors and asks no
    collaborator, the errors per 100 words are 0, the grammar ratio is 1,
    and the evaluator returns, with [grammar_score] 10. *)
Theorem absent_checker_grammar_score_10 (self : IntroductionScorer)
  (text : string) :
  grammar_tool self = None ->
  0 < Str.len (Str.split text) ->
  count_errors self text = (inr 0, [])
  /\ (inject_Z 0 / inject_Z (Str.len (Str.split text)) * 100 == 0)%Q
  /\ (exists g,
         grammar_ratio 0 (Str.len (Str.split text)) = (inr g, [])
         /\ (g == 1)%Q)
  /\ (exists r,
         evaluate_language_grammar self text
         = (inr r, [Invoked LanguageGrammar])
         /\ Language.grammar_score r = 10).
Proof.
  intros Hnone Hwc.
  assert (He : count_errors self text = (inr 0, []))
    by (unfold count_errors; now rewrite Hnone).
  assert (Hne : Str.len (Str.split text) <> 0) by lia.
  pose proof (no_errors_ratio _ Hwc) as Hg.
  split; [exact He|].
  split; [unfold Qeq; cbn; lia|].
  split; [eexists; split; [apply grammar_ratio_returns, Hne | exact Hg]|].
  destruct (ttr_returns (Str.distinct (map Str.lower (Str.split text)))
              (Str.len (map Str.lower (Str.split text)))) as (ttr & Httr).
  eexists. split.
  - unfold evaluate_language_grammar. cbv zeta.
    rewrite (proj2 (Z.eqb_neq _ _) Hne).
    eapply (bind_ok _ _ tt [Invoked LanguageGrammar] _ []); [reflexivity|].
    eapply (bind_ok _ _ 0 [] _ []); [exact He|].
    eapply (bind_ok _ _ _ [] _ []); [apply grammar_ratio_returns, Hne|].
    eapply (bind_ok _ _ ttr [] _ []); [exact Httr | reflexivity].
  - cbn [Language.grammar_score]. unfold grammar_band.
    replace (Num.leb 0.9 _) with true; [reflexivity|].
    symmetry. apply leb_true. rewrite Hg. lra.
Qed.

Lemma absent_checker_grammar_score_10_witness :
  grammar_tool (no_checker 0) = None
  /\ 0 < Str.len (Str.split "my name is asha")
  /\ exists r,
      evaluate_language_grammar (no_checker 0) "my name is asha"
      = (inr r, [Invoked LanguageGrammar])
      /\ Language.grammar_score r = 10.
Proof.
  split; [reflexivity|]. split; [reflexivity|].
  destruct (absent_checker_grammar_score_10 (no_checker 0) "my name is asha"
              eq_refl eq_refl) as (_ & _ & _ & H).
  exact H.
Defined.

(** ** The indices of the flow heuristic *)

Lemma build_indices_lookup (lt k : string) (patterns : list string) :
  In (k, patterns) must_haves ->
  dict_get (build_indices lt) k = Some (first_found patterns lt).
Proof.
  unfold must_haves. cbn [In].
  intros [H | [H | [H | [H | [H | []]]]]]; inversion H; reflexivity.
Qed.

(** C6, as the code has it.  For every transcript and every must-have
    category the index the flow heuristic uses is that of the first
    occurrence of the first pattern, in the order of the category's list,
    that occurs in the lower-cased text, and -1 when no pattern occurs;
    the salutation index is found the same way in the good greetings
    followed by "hi" and "hello". *)
Theorem flow_indices_first_listed_pattern (text k : string)
  (patterns : list string) :
  In (k, patterns) must_haves ->
  (exists idx,
      dict_get (build_indices (Str.lower text)) k = Some idx
      /\ first_listed (Str.lower text) patterns idx)
  /\ first_listed (Str.lower text)
       (good_salutations ++ basic_salutations)%list
       (salutation_index (Str.lower text)).
Proof.
  intros H. split.
  - exists (first_found patterns (Str.lower text)).
    split; [now apply build_indices_lookup | apply first_found_first_listed].
  - apply first_found_first_listed.
Qed.

Lemma flow_indices_first_listed_pattern_witness :
  In ("Name", ["name is"; "i am"; "my name"]) must_haves
  /\ exists idx,
      dict_get (build_indices (Str.lower "Hello, my name is Asha")) "Name"
      = Some idx
      /\ first_listed (Str.lower "Hello, my name is Asha")
           ["name is"; "i am"; "my name"] idx.
Proof.
  split; [left; reflexivity|].
  apply (flow_indices_first_listed_pattern "Hello, my name is Asha" "Name"
           ["name is"; "i am"; "my name"]).
  left; reflexivity.
Defined.

(** C6, as stated, fails.  In "i am here. good morning, my name is bob" the
    pattern "i am" occurs at position 0, before the greeting at 11, yet the
    index used for Name is 28, that of "name is", the first pattern of the
    list; so no deduction is made and the flow score is 5. *)
Lemma flow_indices_not_earliest :
  dict_get
    (build_indices (Str.lower "i am here. good morning, my name is bob"))
    "Name" = Some 28
  /\ earliest_index ["name is"; "i am"; "my name"]
       (Str.lower "i am here. good morning, my name is bob") = 0
  /\ salutation_index (Str.lower "i am here. good morning, my name is bob")
     = 11
  /\ flow (Str.lower "i am here. good morning, my name is bob") = (inr 5, [])
  /\ ~ flow_uses_earliest "i am here. good morning, my name is bob".
Proof.
  split; [reflexivity|]. split; [reflexivity|]. split; [reflexivity|].
  split; [vm_compute; reflexivity|].
  intros [H _].
  specialize (H "Name" ["name is"; "i am"; "my name"] (or_introl eq_refl)).
  vm_compute in H. discriminate H.
Qed.

(** ** Salutation *)

Lemma salutation_basic (lt : string) :
  Str.contains "hi" lt = true ->
  Str.any_in strong_salutations lt = false ->
  Str.any_in good_salutations lt = false ->
  salutation lt = 2.
Proof.
  intros Hhi Hs Hg. unfold salutation. rewrite Hs, Hg.
  unfold Str.any_in, basic_salutations. cbn [existsb]. now rewrite Hhi.
Qed.

(** C10.  Salutation detection is substring containment on the lower-cased
    transcript: for every transcript whose lower-cased text contains "hi"
    anywhere, also inside a word, and contains no strong and no good
    salutation phrase, the salutation score is 2. *)
Theorem hi_inside_a_word_scores_2 (self : IntroductionScorer) (text : string) :
  Str.contains "hi" (Str.lower text) = true ->
  Str.any_in strong_salutations (Str.lower text) = false ->
  Str.any_in good_salutations (Str.lower text) = false ->
  exists r,
    evaluate_content_structure self text = (inr r, [Invoked ContentStructure])
    /\ Content.salutation_score r = 2.
Proof.
  intros Hhi Hs Hg.
  destruct (content_returns self text) as (r & Hr & Hsal & _).
  exists r. split; [exact Hr|]. rewrite Hsal. now apply salutation_basic.
Qed.

Lemma hi_inside_a_word_scores_2_witness :
  Str.contains "hi" (Str.lower "This is something about me") = true
  /\ Str.mem "hi" (Str.split (Str.lower "This is something about me")) = false
  /\ exists r,
      evaluate_content_structure (no_checker 0) "This is something about me"
      = (inr r, [Invoked ContentStructure])
      /\ Content.salutation_score r = 2.
Proof.
  split; [reflexivity|]. split; [reflexivity|].
  apply hi_inside_a_word_scores_2; reflexivity.
Defined.

(** A transcript that contains "hi" in any case of letters gets the same
    credit. *)
Lemma salutation_basic_raw (text : string) :
  Str.contains "hi" text = true ->
  Str.any_in strong_salutations (Str.lower text) = false ->
  Str.any_in good_salutations (Str.lower text) = false ->
  salutation (Str.lower text) = 2.
Proof.
  intros Hhi. apply salutation_basic. exact (contains_lower "hi" text Hhi).
Qed.

(** ** Determinism *)

Lemma language_depends_on_error_count (self1 self2 : IntroductionScorer)
  (text : string) :
  fst (count_errors self1 text) = fst (count_errors self2 text) ->
  fst (evaluate_language_grammar self1 text)
  = fst (evaluate_language_grammar self2 text).
Proof.
  intros H. unfold evaluate_language_grammar. cbv zeta.
  rewrite !(fst_bind (emit _)). cbn [emit fst].
  destruct (Str.len (Str.split text) =? 0); [reflexivity|].
  rewrite !(fst_bind (count_errors _ _)). now rewrite H.
Qed.

Lemma engagement_depends_on_compound (self1 self2 : IntroductionScorer)
  (text : string) :
  compound (polarity_scores (vader_analyzer self1) text)
  = compound (polarity_scores (vader_analyzer self2) text) ->
  evaluate_engagement self1 text = evaluate_engagement self2 text.
Proof.
  intros H. unfold evaluate_engagement. now rewrite H.
Qed.

(** C8.  Scoring is deterministic: two invocations of the entry point on
    the same transcript, by engines whose collaborators give the same
    number of grammar errors and the same compound polarity for it,
    return identical reports. *)
Theorem scoring_deterministic (self1 self2 : IntroductionScorer)
  (text : string) :
  fst (count_errors self1 text) = fst (count_errors self2 text) ->
  compound (polarity_scores (vader_analyzer self1) text)
  = compound (polarity_scores (vader_analyzer self2) text) ->
  fst (calculate_final_score self1 text)
  = fst (calculate_final_score self2 text).
Proof.
  intros He Hc.
  pose proof (language_depends_on_error_count self1 self2 text He) as Hl.
  pose proof (engagement_depends_on_compound self1 self2 text Hc) as Hg.
  unfold calculate_final_score.
  destruct (negb (Str.truthy text) || negb (Str.truthy (Str.strip text)));
    [reflexivity|].
  change (evaluate_content_structure self2 text)
    with (evaluate_content_structure self1 text).
  change (evaluate_speech_rate self2 text)
    with (evaluate_speech_rate self1 text).
  change (evaluate_clarity self2 text) with (evaluate_clarity self1 text).
  rewrite <- Hg.
  rewrite !(fst_bind (evaluate_content_structure _ _)).
  destruct (fst (evaluate_content_structure self1 text)) as [x | c];
    [reflexivity|].
  rewrite !(fst_bind (evaluate_speech_rate _ _)).
  destruct (fst (evaluate_speech_rate self1 text)) as [x | s]; [reflexivity|].
  rewrite !(fst_bind (evaluate_language_grammar _ _)), Hl.
  reflexivity.
Qed.

Lemma scoring_deterministic_witness :
  fst (count_errors (checker_finding 0 0.5) "hello my name is asha")
  = fst (count_errors (no_checker 0.5) "hello my name is asha")
  /\ snd (calculate_final_score (checker_finding 0 0.5) "hello my name is asha")
     <> snd (calculate_final_score (no_checker 0.5) "hello my name is asha")
  /\ fst (calculate_final_score (checker_finding 0 0.5) "hello my name is asha")
     = fst (calculate_final_score (no_checker 0.5) "hello my name is asha").
Proof.
  split; [reflexivity|]. split; [vm_compute; discriminate|].
  apply scoring_deterministic; reflexivity.
Defined.

(** ** Further properties: content and structure *)

Lemma keyword_points_counts (points : Z) (table : list (string * list string))
  (lt : string) :
  keyword_points points table lt = points * Str.len (present table lt).
Proof.
  unfold keyword_points, present, Str.len.
  assert (H : forall acc,
             fold_left
               (fun acc kv =>
                  if Str.any_in (snd kv) lt then acc + points else acc)
               table acc
             = acc + points
                     * Z.of_nat
                         (List.length
                            (filter (fun kv => Str.any_in (snd kv) lt) table))).
  { induction table as [|kv table IH]; intros acc; cbn [fold_left filter].
    - cbn. lia.
    - destruct (Str.any_in (snd kv) lt); rewrite IH; cbn [List.length]; lia. }
  now rewrite H.
Qed.

Lemma present_at_most (table : list (string * list string)) (lt : string) :
  0 <= Str.len (present table lt) <= Str.len table.
Proof.
  unfold present, Str.len. pose proof (filter_length_le
    (fun kv : string * list string => Str.any_in (snd kv) lt) table). lia.
Qed.

Lemma flow_explicit (lt : string) : flow lt = (inr (flow_value lt), []).
Proof.
  unfold flow, flow_value, name_before_salutation, closing_before_name,
    hobbies_before_name, name_index, hobbies_index.
  cbv zeta. rewrite getitem_name, getitem_hobbies.
  generalize (first_found ["name is"; "i am"; "my name"] lt)
             (first_found ["hobby"; "hobbies"; "like to"; "enjoy"; "love to";
                           "playing"; "reading"] lt)
             (salutation_index lt) (closing_index lt).
  intros n h sal clo.
  unfold and_then, bind, ret.
  destruct (sal =? -1), (n =? -1), (clo =? -1), (h =? -1), (n <? sal),
    (clo <? n), (h <? n); reflexivity.
Qed.

Lemma content_explicit (self : IntroductionScorer) (text : string) :
  evaluate_content_structure self text
  = (let lt := Str.lower text in
     inr {| Content.salutation_score := salutation lt;
            Content.keyword_must_have_score :=
              Z.min 20 (keyword_points 4 must_haves lt);
            Content.keyword_good_to_have_score :=
              Z.min 10 (keyword_points 2 good_to_haves lt);
            Content.flow_score := flow_value lt;
            Content.total :=
              salutation lt + Z.min 20 (keyword_points 4 must_haves lt)
              + Z.min 10 (keyword_points 2 good_to_haves lt) + flow_value lt |},
     [Invoked ContentStructure]).
Proof.
  unfold evaluate_content_structure. cbv zeta.
  eapply (bind_ok _ _ tt [Invoked ContentStructure] _ []); [reflexivity|].
  eapply (bind_ok _ _ _ [] _ []); [apply flow_explicit | reflexivity].
Qed.

(** X1.  The must-have score is 4 times the number of must-have
    categories one of whose patterns occurs in the lower-cased transcript,
    and the good-to-have score is 2 times the number of such good-to-have
    categories: the caps at 20 and at 10 never cut anything. *)
Theorem keyword_scores_count_categories (self : IntroductionScorer)
  (text : string) :
  exists r,
    evaluate_content_structure self text = (inr r, [Invoked ContentStructure])
    /\ Content.keyword_must_have_score r
       = 4 * Str.len (present must_haves (Str.lower text))
    /\ Content.keyword_good_to_have_score r
       = 2 * Str.len (present good_to_haves (Str.lower text))
    /\ keyword_points 4 must_haves (Str.lower text) <= 20
    /\ keyword_points 2 good_to_haves (Str.lower text) <= 10.
Proof.
  eexists. split; [apply content_explicit|]. cbv zeta.
  cbn [Content.keyword_must_have_score Content.keyword_good_to_have_score].
  rewrite !keyword_points_counts.
  pose proof (present_at_most must_haves (Str.lower text)) as H1.
  pose proof (present_at_most good_to_haves (Str.lower text)) as H2.
  change (Str.len must_haves) with 5 in H1.
  change (Str.len good_to_haves) with 5 in H2.
  repeat split; lia.
Qed.

(** X2.  The flow evaluation raises no [KeyError], and the flow score is 5
    less 2 when the name index precedes the salutation index, less 3 when
    the closing index precedes the name index, less 1 when the hobbies
    index precedes the name index, and not below 0; an index that is -1
    takes part in no penalty. *)
Theorem flow_score_is_5_less_penalties (self : IntroductionScorer)
  (text : string) :
  exists r,
    evaluate_content_structure self text = (inr r, [Invoked ContentStructure])
    /\ Content.flow_score r
       = Z.max 0
           (5 - (if name_before_salutation (Str.lower text) then 2 else 0)
              - (if closing_before_name (Str.lower text) then 3 else 0)
              - (if hobbies_before_name (Str.lower text) then 1 else 0)).
Proof.
  eexists. split; [apply content_explicit | reflexivity].
Qed.

Lemma name_index_absent (lt : string) :
  Str.any_in ["name is"; "i am"; "my name"] lt = false -> name_index lt = -1.
Proof.
  intros H. apply first_found_absent. intros p Hp.
  unfold Str.any_in in H.
  destruct (Str.contains p lt) eqn:Hc; [|reflexivity].
  assert (existsb (fun p => Str.contains p lt)
            ["name is"; "i am"; "my name"] = true)
    by (apply existsb_exists; now exists p).
  congruence.
Qed.

(** X3.  A transcript in which no Name pattern ("name is", "i am",
    "my name") occurs has the full flow score 5, wherever its greeting,
    closing and hobbies stand. *)
Theorem flow_full_without_name (self : IntroductionScorer) (text : string) :
  Str.any_in ["name is"; "i am"; "my name"] (Str.lower text) = false ->
  exists r,
    evaluate_content_structure self text = (inr r, [Invoked ContentStructure])
    /\ Content.flow_score r = 5.
Proof.
  intros H. eexists. split; [apply content_explicit|]. cbv zeta.
  cbn [Content.flow_score].
  unfold flow_value, name_before_salutation, closing_before_name,
    hobbies_before_name.
  rewrite (name_index_absent _ H). cbn [Z.eqb negb andb].
  rewrite !andb_false_r. reflexivity.
Qed.

Lemma flow_full_without_name_witness :
  Str.any_in ["name is"; "i am"; "my name"]
    (Str.lower "Thank you. I enjoy reading. Hello!") = false
  /\ exists r,
      evaluate_content_structure (no_checker 0)
        "Thank you. I enjoy reading. Hello!"
      = (inr r, [Invoked ContentStructure])
      /\ Content.flow_score r = 5.
Proof.
  split; [reflexivity|].
  apply flow_full_without_name. reflexivity.
Defined.

(** X4.  When a closing phrase is found before the name (both found, the
    closing index smaller), the flow score is at most 2. *)
Theorem flow_at_most_2_when_closing_precedes_name (self : IntroductionScorer)
  (text : string) :
  closing_index (Str.lower text) <> -1 ->
  name_index (Str.lower text) <> -1 ->
  closing_index (Str.lower text) < name_index (Str.lower text) ->
  exists r,
    evaluate_content_structure self text = (inr r, [Invoked ContentStructure])
    /\ 0 <= Content.flow_score r <= 2.
Proof.
  intros Hc Hn Hlt. eexists. split; [apply content_explicit|]. cbv zeta.
  cbn [Content.flow_score]. unfold flow_value.
  replace (closing_before_name (Str.lower text)) with true.
  - destruct (name_before_salutation _), (hobbies_before_name _); lia.
  - symmetry. unfold closing_before_name.
    apply Z.eqb_neq in Hc, Hn. apply Z.ltb_lt in Hlt.
    now rewrite Hc, Hn, Hlt.
Qed.

Lemma flow_at_most_2_when_closing_precedes_name_witness :
  closing_index (Str.lower "Thank you all. My name is Asha.") <> -1
  /\ closing_index (Str.lower "Thank you all. My name is Asha.")
     < name_index (Str.lower "Thank you all. My name is Asha.")
  /\ exists r,
      evaluate_content_structure (no_checker 0)
        "Thank you all. My name is Asha."
      = (inr r, [Invoked ContentStructure])
      /\ 0 <= Content.flow_score r <= 2.
Proof.
  split; [vm_compute; discriminate|]. split; [reflexivity|].
  apply flow_at_most_2_when_closing_precedes_name;
    [vm_compute; discriminate | vm_compute; discriminate | reflexivity].
Defined.

(** ** Further properties: speech rate *)

Lemma wpm_leb_l (n word_count : Z) :
  Num.leb (n # 1) (wpm_of word_count) = (n * 13 <=? word_count * 15).
Proof.
  apply eq_true_iff_eq. rewrite leb_true, Z.leb_le.
  apply (wpm_compare n word_count).
Qed.

Lemma wpm_leb_r (n word_count : Z) :
  Num.leb (wpm_of word_count) (n # 1) = (word_count * 15 <=? n * 13).
Proof.
  apply eq_true_iff_eq. rewrite leb_true, Z.leb_le.
  apply (wpm_compare n word_count).
Qed.

Lemma wpm_ltb_l (n word_count : Z) :
  Num.ltb (n # 1) (wpm_of word_count) = (n * 13 <? word_count * 15).
Proof.
  apply eq_true_iff_eq. rewrite ltb_true, Z.ltb_lt.
  apply (wpm_compare n word_count).
Qed.

Lemma speech_rate_score_words (word_count : Z) :
  speech_rate_score (wpm_of word_count)
  = if (97 <=? word_count) && (word_count <=? 121) then 10
    else if ((71 <=? word_count) && (word_count <=? 95))
            || ((123 <=? word_count) && (word_count <=? 138)) then 6
    else 2.
Proof.
  unfold speech_rate_score.
  rewrite !wpm_leb_l, !wpm_leb_r, wpm_ltb_l.
  repeat match goal with
         | |- context [?a <=? ?b] =>
             destruct (Z.leb_spec a b); cbn [andb orb]
         | |- context [?a <? ?b] =>
             destruct (Z.ltb_spec a b); cbn [andb orb]
         end; try reflexivity; lia.
Qed.

Lemma int_wpm_of (word_count : Z) :
  0 <= word_count -> Num.int (wpm_of word_count) = word_count * 15 / 13.
Proof.
  intros H. rewrite wpm_of_fraction. unfold Num.int, Num.leb.
  replace (Qle_bool 0 (word_count * 60 # 52)) with true
    by (symmetry; apply Qle_bool_iff; unfold Qle; cbn; lia).
  unfold Qfloor.
  replace (word_count * 60) with (word_count * 15 * 4) by lia.
  change (Z.pos 52) with (13 * 4).
  apply Z.div_mul_cancel_r; lia.
Qed.

(** X5.  The speech-rate score is a function of the number of words: 10
    for 97 to 121 words, 6 for 71 to 95 and for 123 to 138 words, and 2
    for every other count (so for 96, 122 and 139 words as well as for
    fewer than 71 and more than 139); the reported wpm is the integer part
    of 15/13 of the word count. *)
Theorem speech_score_by_word_count (self : IntroductionScorer) (text : string) :
  let n := Str.len (Str.split text) in
  exists r,
    evaluate_speech_rate self text = (inr r, [Invoked SpeechRate])
    /\ Speech.wpm r = n * 15 / 13
    /\ (Speech.score r = 10 <-> 97 <= n <= 121)
    /\ (Speech.score r = 6 <-> 71 <= n <= 95 \/ 123 <= n <= 138)
    /\ (Speech.score r = 2 <->
        n <= 70 \/ n = 96 \/ n = 122 \/ 139 <= n).
Proof.
  intros n. eexists. split; [apply speech_returns|].
  cbn [Speech.wpm Speech.score]. fold n.
  split; [apply int_wpm_of, len_nonneg|].
  rewrite speech_rate_score_words.
  destruct (Z.leb_spec 97 n), (Z.leb_spec n 121), (Z.leb_spec 71 n),
    (Z.leb_spec n 95), (Z.leb_spec 123 n), (Z.leb_spec n 138);
    cbn [andb orb]; repeat split; intros; try lia; try discriminate.
Qed.

(** ** Further properties: language and grammar *)

(** Unfolds comparisons of fractions to comparisons of integers. *)
Ltac fractions :=
  cbv [Qle Qlt Qdiv Qmult Qinv inject_Z Qminus Qplus Qopp Qnum Qden] in *;
  rewrite ?Pos2Z.inj_mul in *.

Lemma leb_tenths_fraction (k u : Z) (p : positive) :
  Qle_bool (k # 10) (inject_Z u / inject_Z (Z.pos p))
  = (k * Z.pos p <=? 10 * u).
Proof.
  apply eq_true_iff_eq. rewrite Qle_bool_iff, Z.leb_le.
  fractions. lia.
Qed.

Lemma vocab_band_fraction (u t : Z) :
  0 < t ->
  vocab_band (inject_Z u / inject_Z t)
  = if 9 * t <=? 10 * u then 10
    else if 7 * t <=? 10 * u then 8
    else if 5 * t <=? 10 * u then 6
    else if 3 * t <=? 10 * u then 4
    else 2.
Proof.
  intros Ht. destruct t as [|p|p]; try lia.
  unfold vocab_band, Num.ltb, Num.leb.
  change 0.9%Q with (9 # 10). change 0.7%Q with (7 # 10).
  change 0.5%Q with (5 # 10). change 0.3%Q with (3 # 10).
  rewrite !leb_tenths_fraction.
  repeat match goal with
         | |- context [?a <=? ?b] =>
             destruct (Z.leb_spec a b); cbn [andb negb]
         end; try reflexivity; lia.
Qed.

Lemma grammar_ratio_tenths (k e : Z) (p : positive) :
  0 < k -> 0 <= e ->
  Qle_bool (k # 10)
    (1 - Num.min (inject_Z e / inject_Z (Z.pos p) * 100 / 10) 1)
  = (100 * e <=? (10 - k) * Z.pos p).
Proof.
  intros Hk He. apply eq_true_iff_eq. rewrite Qle_bool_iff, Z.leb_le.
  unfold Num.min.
  destruct (Num.ltb 1 (inject_Z e / inject_Z (Z.pos p) * 100 / 10)) eqn:Hlt.
  - apply ltb_true in Hlt. fractions. lia.
  - apply ltb_false in Hlt. fractions. lia.
Qed.

Lemma grammar_band_errors (e wc : Z) :
  0 <= e -> 0 < wc ->
  grammar_band (1 - Num.min (inject_Z e / inject_Z wc * 100 / 10) 1)
  = if 100 * e <=? wc then 10
    else if 100 * e <=? 3 * wc then 8
    else if 100 * e <=? 5 * wc then 6
    else if 100 * e <=? 7 * wc then 4
    else 2.
Proof.
  intros He Hwc. destruct wc as [|p|p]; try lia.
  unfold grammar_band, Num.ltb, Num.leb.
  change 0.9%Q with (9 # 10). change 0.7%Q with (7 # 10).
  change 0.5%Q with (5 # 10). change 0.3%Q with (3 # 10).
  rewrite !grammar_ratio_tenths by lia.
  change (10 - 9) with 1. change (10 - 7) with 3.
  change (10 - 5) with 5. change (10 - 3) with 7.
  rewrite Z.mul_1_l.
  repeat match goal with
         | |- context [?a <=? ?b] =>
             destruct (Z.leb_spec a b); cbn [andb negb]
         end; try reflexivity; lia.
Qed.

Lemma len_map {A B : Type} (f : A -> B) (xs : list A) :
  Str.len (map f xs) = Str.len xs.
Proof. unfold Str.len. now rewrite length_map. Qed.

Lemma language_words (self : IntroductionScorer) (text : string) (e : Z)
  (tr : trace) :
  Str.all_space text = false ->
  count_errors self text = (inr e, tr) ->
  evaluate_language_grammar self text
  = (let wc := Str.len (Str.split text) in
     let tokens := map Str.lower (Str.split text) in
     let g :=
       grammar_band
         (1 - Num.min (inject_Z e / inject_Z wc * 100 / 10) 1) in
     let v :=
       vocab_band (inject_Z (Str.distinct tokens) / inject_Z (Str.len tokens)) in
     inr {| Language.grammar_score := g;
            Language.vocabulary_richness_score := v;
            Language.total := g + v |},
     Invoked LanguageGrammar :: tr).
Proof.
  intros H He. unfold evaluate_language_grammar. cbv zeta.
  pose proof (len_split_zero text) as Hz. rewrite H in Hz. rewrite Hz.
  apply Z.eqb_neq in Hz.
  assert (Hpos : (Str.len (map Str.lower (Str.split text)) >? 0) = true).
  { rewrite len_map. pose proof (len_nonneg (Str.split text)).
    apply Z.gtb_lt. lia. }
  rewrite Hpos.
  eapply (bind_ok _ _ tt [Invoked LanguageGrammar]); [reflexivity|].
  rewrite <- (app_nil_r tr).
  eapply (bind_ok _ _ e tr _ []); [exact He|].
  eapply (bind_ok _ _ _ [] _ []); [apply grammar_ratio_returns, Hz|].
  eapply (bind_ok _ _ _ [] _ []); [|reflexivity].
  apply truediv_ok, inject_Z_nonzero. rewrite len_map. exact Hz.
Qed.

Lemma count_errors_value (self : IntroductionScorer) (text : string) :
  count_errors self text
  = match grammar_tool self with
    | Some tool => (inr (Str.len (check tool text)), [GrammarCheck text])
    | None => (inr 0, [])
    end.
Proof. unfold count_errors. now destruct (grammar_tool self). Qed.

Lemma distinct_range (ws : list string) :
  ws <> [] -> 1 <= Str.distinct ws <= Str.len ws.
Proof.
  intros H. unfold Str.distinct, Str.len.
  assert (Hle : (List.length (nodup string_dec ws) <= List.length ws)%nat).
  { clear H. induction ws as [|w ws IH]; cbn [nodup List.length]; [lia|].
    destruct (in_dec string_dec w ws); cbn [List.length]; lia. }
  assert (Hne : nodup string_dec ws <> []).
  { destruct ws as [|w ws]; [congruence|]. intros E.
    assert (Hin : In w (nodup string_dec (w :: ws)))
      by (apply nodup_In; now left).
    rewrite E in Hin. destruct Hin. }
  destruct (nodup string_dec ws); [congruence|]. cbn [List.length] in *. lia.
Qed.

(** X6.  For a transcript with a word, the vocabulary score depends on the
    number u of distinct lower-cased tokens among the t tokens: 10 when
    10u >= 9t, 8 when 7t <= 10u < 9t, 6 when 5t <= 10u < 7t, 4 when
    3t <= 10u < 5t, and 2 when 10u < 3t; and 1 <= u <= t. *)
Theorem vocabulary_score_by_distinct_tokens (self : IntroductionScorer)
  (text : string) :
  Str.all_space text = false ->
  let tokens := map Str.lower (Str.split text) in
  let u := Str.distinct tokens in
  let t := Str.len tokens in
  exists r tr,
    evaluate_language_grammar self text = (inr r, tr)
    /\ 1 <= u <= t
    /\ (Language.vocabulary_richness_score r = 10 <-> 9 * t <= 10 * u)
    /\ (Language.vocabulary_richness_score r = 8 <->
        7 * t <= 10 * u < 9 * t)
    /\ (Language.vocabulary_richness_score r = 6 <->
        5 * t <= 10 * u < 7 * t)
    /\ (Language.vocabulary_richness_score r = 4 <->
        3 * t <= 10 * u < 5 * t)
    /\ (Language.vocabulary_richness_score r = 2 <-> 10 * u < 3 * t).
Proof.
  intros H tokens u t.
  destruct (count_errors_returns self text) as (e & tr & He & _).
  assert (Hne : tokens <> []).
  { unfold tokens. intros E. apply map_eq_nil in E. apply split_nil in E.
    congruence. }
  pose proof (distinct_range tokens Hne) as Hu. fold u t in Hu.
  do 2 eexists. split; [exact (language_words self text e tr H He)|].
  cbv zeta. cbn [Language.vocabulary_richness_score]. fold tokens u t.
  split; [exact Hu|].
  rewrite vocab_band_fraction by lia.
  repeat match goal with
         | |- context [?a <=? ?b] => destruct (Z.leb_spec a b)
         end; repeat split; intros; try lia; try discriminate.
Qed.

Lemma vocabulary_score_by_distinct_tokens_witness :
  Str.all_space "the cat saw the cat" = false
  /\ exists r tr,
      evaluate_language_grammar (no_checker 0) "the cat saw the cat"
      = (inr r, tr)
      /\ Language.vocabulary_richness_score r = 6.
Proof.
  split; [reflexivity|].
  destruct (vocabulary_score_by_distinct_tokens (no_checker 0)
              "the cat saw the cat" eq_refl)
    as (r & tr & Hr & _ & _ & _ & H6 & _).
  exists r, tr. split; [exact Hr|]. apply H6. vm_compute. split; [discriminate | reflexivity].
Defined.

(** X7.  A transcript whose tokens are pairwise different, letter case
    apart, has the vocabulary score 10. *)
Theorem distinct_tokens_vocabulary_10 (self : IntroductionScorer)
  (text : string) :
  Str.all_space text = false ->
  NoDup (map Str.lower (Str.split text)) ->
  exists r tr,
    evaluate_language_grammar self text = (inr r, tr)
    /\ Language.vocabulary_richness_score r = 10.
Proof.
  intros H Hnd.
  destruct (count_errors_returns self text) as (e & tr & He & _).
  do 2 eexists. split; [exact (language_words self text e tr H He)|].
  cbv zeta. cbn [Language.vocabulary_richness_score].
  unfold Str.distinct. rewrite (nodup_fixed_point string_dec Hnd).
  assert (Hpos : 0 < Str.len (map Str.lower (Str.split text))).
  { rewrite len_map. pose proof (len_split_zero text) as Hz.
    rewrite H in Hz. apply Z.eqb_neq in Hz.
    pose proof (len_nonneg (Str.split text)). lia. }
  rewrite vocab_band_fraction by exact Hpos.
  destruct (Z.leb_spec (9 * Str.len (map Str.lower (Str.split text)))
              (10 * Str.len (map Str.lower (Str.split text))));
    [reflexivity | lia].
Qed.

Lemma distinct_tokens_vocabulary_10_witness :
  Str.all_space "My name is Asha" = false
  /\ exists r tr,
      evaluate_language_grammar (no_checker 0) "My name is Asha" = (inr r, tr)
      /\ Language.vocabulary_richness_score r = 10.
Proof.
  split; [reflexivity|].
  apply distinct_tokens_vocabulary_10; [reflexivity|].
  vm_compute. repeat constructor; cbn; intuition discriminate.
Defined.

(** X8.  For a transcript with a word whose checker reports e issues in
    wc words, the grammar score is 10 exactly when there is at most one
    issue per 100 words (100e <= wc), and it is 2 when there is one issue
    or more per 10 words (wc <= 10e). *)
Theorem grammar_score_by_error_rate (self : IntroductionScorer)
  (text : string) (tool : LanguageTool) :
  Str.all_space text = false ->
  grammar_tool self = Some tool ->
  let e := Str.len (check tool text) in
  let wc := Str.len (Str.split text) in
  exists r,
    evaluate_language_grammar self text
    = (inr r, [Invoked LanguageGrammar; GrammarCheck text])
    /\ (Language.grammar_score r = 10 <-> 100 * e <= wc)
    /\ (wc <= 10 * e -> Language.grammar_score r = 2).
Proof.
  intros H Htool e wc.
  assert (He : count_errors self text = (inr e, [GrammarCheck text]))
    by (rewrite count_errors_value, Htool; reflexivity).
  assert (Hwc : 0 < wc).
  { pose proof (len_split_zero text) as Hz. rewrite H in Hz.
    apply Z.eqb_neq in Hz. pose proof (len_nonneg (Str.split text)).
    unfold wc. lia. }
  assert (He0 : 0 <= e) by apply len_nonneg.
  eexists. split; [exact (language_words self text e _ H He)|].
  cbv zeta. cbn [Language.grammar_score]. fold wc.
  rewrite (grammar_band_errors e wc He0 Hwc).
  repeat match goal with
         | |- context [?a <=? ?b] => destruct (Z.leb_spec a b)
         end; repeat split; intros; try lia; try discriminate.
Qed.

Lemma grammar_score_by_error_rate_witness :
  Str.all_space "me name be asha" = false
  /\ exists r,
      evaluate_language_grammar (checker_finding 1 0) "me name be asha"
      = (inr r, [Invoked LanguageGrammar; GrammarCheck "me name be asha"])
      /\ Language.grammar_score r = 2.
Proof.
  split; [reflexivity|].
  destruct (grammar_score_by_error_rate (checker_finding 1 0)
              "me name be asha" _ eq_refl eq_refl) as (r & Hr & _ & H2).
  exists r. split; [exact Hr|]. apply H2. vm_compute. discriminate.
Defined.

(** X9.  More issues never give a higher grammar score: of two checkers,
    on the same transcript, the one that reports at least as many issues
    yields a grammar score that is at most the other's. *)
Theorem grammar_score_antitone_in_errors (self1 self2 : IntroductionScorer)
  (text : string) (e1 e2 : Z) (tr1 tr2 : trace) :
  Str.all_space text = false ->
  count_errors self1 text = (inr e1, tr1) ->
  count_errors self2 text = (inr e2, tr2) ->
  e1 <= e2 ->
  exists r1 r2,
    evaluate_language_grammar self1 text
    = (inr r1, Invoked LanguageGrammar :: tr1)
    /\ evaluate_language_grammar self2 text
       = (inr r2, Invoked LanguageGrammar :: tr2)
    /\ Language.grammar_score r2 <= Language.grammar_score r1.
Proof.
  intros H He1 He2 Hle.
  assert (Hwc : 0 < Str.len (Str.split text)).
  { pose proof (len_split_zero text) as Hz. rewrite H in Hz.
    apply Z.eqb_neq in Hz. pose proof (len_nonneg (Str.split text)). lia. }
  assert (H1 : 0 <= e1).
  { destruct (count_errors_returns self1 text) as (e & tr & He & Hpos).
    congruence. }
  assert (H2 : 0 <= e2) by lia.
  do 2 eexists.
  split; [exact (language_words self1 text e1 tr1 H He1)|].
  split; [exact (language_words self2 text e2 tr2 H He2)|].
  cbv zeta. cbn [Language.grammar_score].
  rewrite (grammar_band_errors e1 _ H1 Hwc), (grammar_band_errors e2 _ H2 Hwc).
  repeat match goal with
         | |- context [?a <=? ?b] => destruct (Z.leb_spec a b)
         end; lia.
Qed.

Lemma grammar_score_antitone_in_errors_witness :
  exists r1 r2,
    evaluate_language_grammar (no_checker 0) "my name is asha"
    = (inr r1, [Invoked LanguageGrammar])
    /\ evaluate_language_grammar (checker_finding 2 0) "my name is asha"
       = (inr r2, [Invoked LanguageGrammar; GrammarCheck "my name is asha"])
    /\ Language.grammar_score r2 <= Language.grammar_score r1.
Proof.
  apply (grammar_score_antitone_in_errors (no_checker 0) (checker_finding 2 0)
           "my name is asha" 0 2 [] [GrammarCheck "my name is asha"]);
    [reflexivity | reflexivity | reflexivity | lia].
Defined.

(** ** Further properties: clarity *)

Lemma count_from_nonneg (p s : string) (skip : nat) :
  0 <= Str.count_from p s skip.
Proof.
  revert skip. induction s as [|c s IH]; intros skip.
  - destruct skip; cbn [Str.count_from]; [destruct (prefix p "")|]; lia.
  - destruct skip as [|k]; cbn [Str.count_from].
    + destruct (prefix p (String c s)).
      * pose proof (IH (Nat.pred (String.length p))). lia.
      * apply IH.
    + apply IH.
Qed.

Lemma count_fillers_nonneg (lt : string) (ws : list string) :
  0 <= count_fillers lt ws.
Proof.
  unfold count_fillers.
  assert (H1 : forall acc, 0 <= acc ->
             0 <= fold_left
                    (fun acc w => if Str.mem w fillers then acc + 1 else acc)
                    ws acc).
  { induction ws as [|w ws IH]; intros acc Hacc; cbn [fold_left]; [exact Hacc|].
    apply IH. destruct (Str.mem w fillers); lia. }
  assert (H2 : forall (fs : list string) acc, 0 <= acc ->
             0 <= fold_left (fun acc f => acc + Str.count f lt) fs acc).
  { induction fs as [|f fs IH]; intros acc Hacc; cbn [fold_left]; [exact Hacc|].
    apply IH. pose proof (count_from_nonneg f lt O). unfold Str.count. lia. }
  apply H2, H1. lia.
Qed.

Lemma clarity_explicit (self : IntroductionScorer) (text : string) :
  Str.all_space text = false ->
  evaluate_clarity self text
  = (let lt := Str.lower text in
     inr {| Clar.filler_word_count := count_fillers lt (Str.split lt);
            Clar.filler_word_rate_percent := Num.round2 (rate_percent_of text);
            Clar.score := clarity_band (rate_percent_of text) |},
     [Invoked Clarity]).
Proof.
  intros H. unfold evaluate_clarity. cbv zeta.
  pose proof (len_split_zero (Str.lower text)) as Hz.
  rewrite all_space_lower, H in Hz. rewrite Hz.
  apply Z.eqb_neq in Hz.
  eapply (bind_ok _ _ tt [Invoked Clarity] _ []); [reflexivity|].
  eapply (bind_ok _ _ _ [] _ []); [apply filler_rate_returns, Hz|].
  reflexivity.
Qed.

Lemma percent_leb_r (k f : Z) (p : positive) :
  Qle_bool (inject_Z f / inject_Z (Z.pos p) * 100) (k # 1)
  = (100 * f <=? k * Z.pos p).
Proof.
  apply eq_true_iff_eq. rewrite Qle_bool_iff, Z.leb_le. fractions. lia.
Qed.

Lemma percent_leb_l (k f : Z) (p : positive) :
  Qle_bool (k # 1) (inject_Z f / inject_Z (Z.pos p) * 100)
  = (k * Z.pos p <=? 100 * f).
Proof.
  apply eq_true_iff_eq. rewrite Qle_bool_iff, Z.leb_le. fractions. lia.
Qed.

Lemma clarity_band_percent (f wc : Z) :
  0 < wc ->
  clarity_band (inject_Z f / inject_Z wc * 100)
  = if 100 * f <=? 3 * wc then 15
    else if (4 * wc <=? 100 * f) && (100 * f <=? 6 * wc) then 12
    else if (7 * wc <=? 100 * f) && (100 * f <=? 9 * wc) then 9
    else if (10 * wc <=? 100 * f) && (100 * f <=? 12 * wc) then 6
    else 3.
Proof.
  intros Hwc. destruct wc as [|p|p]; try lia.
  unfold clarity_band, Num.leb.
  now rewrite !percent_leb_r, !percent_leb_l.
Qed.

(** X10.  For a transcript with wc words of which the evaluator counts f
    fillers (f is never negative), the clarity score is 15 when
    100f <= 3wc, 12 when 4wc <= 100f <= 6wc, 9 when 7wc <= 100f <= 9wc,
    6 when 10wc <= 100f <= 12wc, and 3 in every other case. *)
Theorem clarity_score_by_filler_count (self : IntroductionScorer)
  (text : string) :
  Str.all_space text = false ->
  let wc := Str.len (Str.split (Str.lower text)) in
  exists r,
    evaluate_clarity self text = (inr r, [Invoked Clarity])
    /\ 0 <= Clar.filler_word_count r
    /\ 0 < wc
    /\ (Clar.score r = 15 <-> 100 * Clar.filler_word_count r <= 3 * wc)
    /\ (Clar.score r = 12 <->
        4 * wc <= 100 * Clar.filler_word_count r <= 6 * wc)
    /\ (Clar.score r = 9 <->
        7 * wc <= 100 * Clar.filler_word_count r <= 9 * wc)
    /\ (Clar.score r = 6 <->
        10 * wc <= 100 * Clar.filler_word_count r <= 12 * wc)
    /\ (Clar.score r = 3 <->
        3 * wc < 100 * Clar.filler_word_count r < 4 * wc
        \/ 6 * wc < 100 * Clar.filler_word_count r < 7 * wc
        \/ 9 * wc < 100 * Clar.filler_word_count r < 10 * wc
        \/ 12 * wc < 100 * Clar.filler_word_count r).
Proof.
  intros H wc.
  assert (Hwc : 0 < wc).
  { pose proof (len_split_zero (Str.lower text)) as Hz.
    rewrite all_space_lower, H in Hz. apply Z.eqb_neq in Hz.
    pose proof (len_nonneg (Str.split (Str.lower text))). unfold wc. lia. }
  eexists. split; [apply clarity_explicit, H|]. cbv zeta.
  cbn [Clar.filler_word_count Clar.score].
  split; [apply count_fillers_nonneg|]. split; [exact Hwc|].
  unfold rate_percent_of. cbv zeta. fold wc.
  rewrite (clarity_band_percent _ wc Hwc).
  generalize (count_fillers (Str.lower text) (Str.split (Str.lower text))).
  intros f. clearbody wc. clear H.
  repeat match goal with
         | |- context [?a <=? ?b] =>
             destruct (Z.leb_spec a b); cbn [andb]
         end; repeat split; intros; try lia; try discriminate.
Qed.

Lemma clarity_score_by_filler_count_witness :
  Str.all_space "Um, well I am like so happy today" = false
  /\ exists r,
      evaluate_clarity (no_checker 0) "Um, well I am like so happy today"
      = (inr r, [Invoked Clarity])
      /\ 0 <= Clar.filler_word_count r.
Proof.
  split; [reflexivity|].
  destruct (clarity_score_by_filler_count (no_checker 0)
              "Um, well I am like so happy today" eq_refl)
    as (r & Hr & Hf & _).
  exists r. split; [exact Hr | exact Hf].
Defined.

(** ** Further properties: engagement *)

(** X11.  For a transcript with a word, the engagement score depends on
    the compound polarity c alone: 15 when c >= 0.8, 12 when
    0.4 <= c < 0.8, 9 when 0 <= c < 0.4, 6 when -0.4 <= c < 0, and 3 when
    c < -0.4; the analyzer is asked once, for the transcript as given. *)
Theorem engagement_score_by_compound (self : IntroductionScorer)
  (text : string) :
  Str.all_space text = false ->
  let c := compound (polarity_scores (vader_analyzer self) text) in
  exists r,
    evaluate_engagement self text
    = (inr r, [Invoked Engagement; PolarityScores text])
    /\ (Engage.score r = 15 <-> (0.8 <= c)%Q)
    /\ (Engage.score r = 12 <-> (0.4 <= c < 0.8)%Q)
    /\ (Engage.score r = 9 <-> (0 <= c < 0.4)%Q)
    /\ (Engage.score r = 6 <-> (-0.4 <= c < 0)%Q)
    /\ (Engage.score r = 3 <-> (c < -0.4)%Q).
Proof.
  intros H c. eexists. split; [apply engagement_words, H|].
  cbv zeta. cbn [Engage.score]. fold c. clearbody c. clear H.
  unfold engagement_band, Qdiv. change (/ 2)%Q with (1 # 2)%Q.
  repeat match goal with
         | |- context [if ?b then _ else _] => destruct b eqn:?
         end;
    compare_all; repeat split; intros; try discriminate; try lra;
    try reflexivity.
Qed.

Lemma engagement_score_by_compound_witness :
  Str.all_space "I love reading" = false
  /\ exists r,
      evaluate_engagement (no_checker 0.6369) "I love reading"
      = (inr r, [Invoked Engagement; PolarityScores "I love reading"])
      /\ Engage.score r = 12.
Proof.
  split; [reflexivity|].
  destruct (engagement_score_by_compound (no_checker 0.6369) "I love reading"
              eq_refl) as (r & Hr & _ & H12 & _).
  exists r. split; [exact Hr|]. apply H12.
  split; [discriminate | reflexivity].
Defined.

(** ** Further properties: the aggregator *)

Lemma final_explicit (self : IntroductionScorer) (text : string) :
  Str.all_space text = false ->
  exists r,
    calculate_final_score self text = (inr r, calls_of self text)
    /\ fst (evaluate_content_structure self text)
       = inr (content_and_structure r)
    /\ fst (evaluate_speech_rate self text) = inr (speech_rate r)
    /\ fst (evaluate_language_grammar self text)
       = inr (language_and_grammar r)
    /\ fst (evaluate_clarity self text) = inr (clarity r)
    /\ fst (evaluate_engagement self text) = inr (engagement r)
    /\ overall_score r = Z.max 0 (Z.min 100 (category_sum r)).
Proof.
  intros H.
  pose proof (content_explicit self text) as Hc.
  pose proof (speech_returns self text) as Hs.
  pose proof (count_errors_value self text) as He.
  pose proof (clarity_explicit self text H) as Hk.
  pose proof (engagement_words self text H) as Hg.
  unfold calls_of.
  destruct (grammar_tool self) as [tool|].
  - pose proof (language_words self text _ _ H He) as Hl.
    eexists. split; [exact (final_words self text _ _ _ _ _ _ _ _ _ _
                              H Hc Hs Hl Hk Hg)|].
    rewrite Hc, Hs, Hl, Hk, Hg. repeat split.
  - pose proof (language_words self text _ _ H He) as Hl.
    eexists. split; [exact (final_words self text _ _ _ _ _ _ _ _ _ _
                              H Hc Hs Hl Hk Hg)|].
    rewrite Hc, Hs, Hl, Hk, Hg. repeat split.
Qed.

(** X12.  Scoring a transcript with a word enters the five evaluators
    once each, in the order content, speech rate, language, clarity,
    engagement; it asks the grammar checker once when there is one and
    never otherwise, and the sentiment analyzer exactly once; both are
    given the transcript as it was passed, not its lower-cased form. *)
Theorem scoring_calls_in_order (self : IntroductionScorer) (text : string) :
  Str.all_space text = false ->
  snd (calculate_final_score self text)
  = ([Invoked ContentStructure; Invoked SpeechRate; Invoked LanguageGrammar]
     ++ (match grammar_tool self with
         | Some _ => [GrammarCheck text]
         | None => []
         end)
     ++ [Invoked Clarity; Invoked Engagement; PolarityScores text])%list.
Proof.
  intros H. destruct (final_explicit self text H) as (r & Hr & _).
  rewrite Hr. reflexivity.
Qed.

Lemma scoring_calls_in_order_witness :
  Str.all_space "Hello Everyone" = false
  /\ snd (calculate_final_score (checker_finding 0 0) "Hello Everyone")
     = [Invoked ContentStructure; Invoked SpeechRate; Invoked LanguageGrammar;
        GrammarCheck "Hello Everyone"; Invoked Clarity; Invoked Engagement;
        PolarityScores "Hello Everyone"].
Proof.
  split; [reflexivity|].
  exact (scoring_calls_in_order (checker_finding 0 0) "Hello Everyone" eq_refl).
Defined.

(** ** Further properties: letter case *)

Lemma lower_snoc (cur : string) (c : ascii) :
  Str.lower (cur ++ String c "") = Str.lower cur ++ String (Str.lower_char c) "".
Proof.
  induction cur as [|a cur IH]; cbn [append Str.lower]; [reflexivity|].
  now rewrite IH.
Qed.

Lemma truthy_lower (s : string) : Str.truthy (Str.lower s) = Str.truthy s.
Proof. now destruct s. Qed.

Lemma split_from_lower (s cur : string) :
  Str.split_from (Str.lower cur) (Str.lower s)
  = map Str.lower (Str.split_from cur s).
Proof.
  revert cur. induction s as [|c s IH]; intros cur;
    cbn [Str.lower Str.split_from].
  - rewrite truthy_lower. now destruct (Str.truthy cur).
  - rewrite isspace_lower_char, truthy_lower.
    destruct (Str.isspace c).
    + destruct (Str.truthy cur); cbn [map]; now rewrite <- (IH "").
    + now rewrite <- IH, lower_snoc.
Qed.

(** The tokens of the lower-cased text are the lower-cased tokens. *)
Lemma split_lower (s : string) :
  Str.split (Str.lower s) = map Str.lower (Str.split s).
Proof. exact (split_from_lower s ""). Qed.

(** X13.  The report does not depend on the case of the letters: two
    transcripts with the same lower-cased text, scored with collaborators
    that give the same number of issues and the same compound polarity
    for them, get identical reports. *)
Theorem report_ignores_letter_case (self1 self2 : IntroductionScorer)
  (text1 text2 : string) :
  Str.lower text1 = Str.lower text2 ->
  fst (count_errors self1 text1) = fst (count_errors self2 text2) ->
  compound (polarity_scores (vader_analyzer self1) text1)
  = compound (polarity_scores (vader_analyzer self2) text2) ->
  fst (calculate_final_score self1 text1)
  = fst (calculate_final_score self2 text2).
Proof.
  intros Hlow Herr Hcomp.
  assert (Hsp : Str.all_space text1 = Str.all_space text2)
    by (rewrite <- (all_space_lower text1), <- (all_space_lower text2);
        now rewrite Hlow).
  assert (Htok : map Str.lower (Str.split text1)
                 = map Str.lower (Str.split text2))
    by (rewrite <- !split_lower; now rewrite Hlow).
  assert (Hlen : Str.len (Str.split text1) = Str.len (Str.split text2))
    by (rewrite <- (len_map Str.lower (Str.split text1)),
          <- (len_map Str.lower (Str.split text2)); now rewrite Htok).
  destruct (Str.all_space text2) eqn:H2.
  - now rewrite (final_blank self1 text1 Hsp), (final_blank self2 text2 H2).
  - destruct (count_errors_returns self1 text1) as (e1 & tr1 & He1 & _).
    destruct (count_errors_returns self2 text2) as (e2 & tr2 & He2 & _).
    rewrite He1, He2 in Herr. cbn [fst] in Herr.
    injection Herr as Herr. subst e2.
    rewrite (final_words self1 text1 _ _ _ _ _ _ _ _ _ _ Hsp
               (content_explicit self1 text1) (speech_returns self1 text1)
               (language_words self1 text1 e1 tr1 Hsp He1)
               (clarity_explicit self1 text1 Hsp)
               (engagement_words self1 text1 Hsp)).
    rewrite (final_words self2 text2 _ _ _ _ _ _ _ _ _ _ H2
               (content_explicit self2 text2) (speech_returns self2 text2)
               (language_words self2 text2 e1 tr2 H2 He2)
               (clarity_explicit self2 text2 H2)
               (engagement_words self2 text2 H2)).
    cbv zeta. cbn [fst]. unfold rate_percent_of.
    now rewrite Hlow, Hlen, Htok, Hcomp.
Qed.

Lemma report_ignores_letter_case_witness :
  Str.lower "HELLO, My Name Is ASHA" = Str.lower "hello, my name is asha"
  /\ "HELLO, My Name Is ASHA" <> "hello, my name is asha"
  /\ fst (calculate_final_score (no_checker 0.5) "HELLO, My Name Is ASHA")
     = fst (calculate_final_score (no_checker 0.5) "hello, my name is asha").
Proof.
  split; [reflexivity|]. split; [discriminate|].
  apply report_ignores_letter_case; reflexivity.
Defined.

(** ** Further properties: the radar chart and the feedback *)

Lemma scaled_within (z d : Z) (n : positive) :
  0 <= z -> z * Z.pos n <= 10 * d -> 0 < d ->
  (0 <= inject_Z z / (d # n) <= 10)%Q.
Proof.
  intros H0 H1 Hd. destruct d as [|p|p]; try lia.
  split; fractions; nia.
Qed.

(** X14.  For the report of every transcript the radar chart gets six
    values, the first repeated at the end, and every value lies on the
    axis, between 0 and 10. *)
Theorem radar_values_on_axis (self : IntroductionScorer) (text : string) :
  exists r tr,
    calculate_final_score self text = (inr r, tr)
    /\ List.length (radar_values r) = 6%nat
    /\ last (radar_values r) 0%Q = hd 0%Q (radar_values r)
    /\ Forall (fun v => (0 <= v <= 10)%Q) (radar_values r).
Proof.
  destruct (final_returns self text) as (r & tr & Hr & _ & Hw & _).
  exists r, tr. split; [exact Hr|]. split; [reflexivity|].
  split; [reflexivity|].
  unfold categories_within in Hw.
  destruct Hw as (Hc & _ & Hs & Hl & _ & Hk & He).
  unfold radar_values. cbv zeta. cbn [app hd].
  change 4%Q with (4 # 1). change 2%Q with (2 # 1).
  change 1.5%Q with (15 # 10).
  assert (Hcv := scaled_within (Content.total (content_and_structure r)) 4 1).
  assert (Hlv := scaled_within (Language.total (language_and_grammar r)) 2 1).
  assert (Hkv := scaled_within (Clar.score (clarity r)) 15 10).
  assert (Hev := scaled_within (Engage.score (engagement r)) 15 10).
  repeat constructor; try (apply Hcv; lia); try (apply Hlv; lia);
    try (apply Hkv; lia); try (apply Hev; lia);
    unfold Qle, inject_Z; cbn [Qnum Qden]; lia.
Qed.

Lemma feedback_items (r : Report) :
  (In content_advice (feedback r)
   <-> Content.total (content_and_structure r) < 20)
  /\ (In content_praise (feedback r)
      <-> 20 <= Content.total (content_and_structure r))
  /\ (In pace_advice (feedback r) <-> Speech.score (speech_rate r) < 6)
  /\ (In filler_advice (feedback r) <-> Clar.score (clarity r) < 10)
  /\ (In enthusiasm_advice (feedback r)
      <-> Engage.score (engagement r) < 10).
Proof.
  unfold feedback. cbv zeta.
  destruct (Z.ltb_spec (Content.total (content_and_structure r)) 20),
    (Z.ltb_spec (Speech.score (speech_rate r)) 6),
    (Z.ltb_spec (Clar.score (clarity r)) 10),
    (Z.ltb_spec (Engage.score (engagement r)) 10);
    cbn [app In];
    unfold content_advice, content_praise, pace_advice, filler_advice,
      enthusiasm_advice;
    repeat split; intros;
    repeat match goal with
           | H : _ \/ _ |- _ => destruct H
           | H : False |- _ => destruct H
           | H : _ = _ |- _ => discriminate H
           end; try lia; auto 6.
Qed.

(** X15.  The feedback written for the report of a transcript with a word
    advises on the pace exactly when the word count is outside 71-95,
    97-121 and 123-138; on fillers exactly when the clarity score is
    below 10, that is when the filler count f and word count wc satisfy
    6wc < 100f or 3wc < 100f < 4wc; and on enthusiasm exactly when the
    compound polarity is below 0.4. *)
Theorem feedback_of_scored_transcript (self : IntroductionScorer)
  (text : string) :
  Str.all_space text = false ->
  let n := Str.len (Str.split text) in
  let wc := Str.len (Str.split (Str.lower text)) in
  let f := count_fillers (Str.lower text) (Str.split (Str.lower text)) in
  let c := compound (polarity_scores (vader_analyzer self) text) in
  exists r tr,
    calculate_final_score self text = (inr r, tr)
    /\ (In pace_advice (feedback r) <->
        ~ (71 <= n <= 95 \/ 97 <= n <= 121 \/ 123 <= n <= 138))
    /\ (In filler_advice (feedback r) <->
        6 * wc < 100 * f \/ 3 * wc < 100 * f < 4 * wc)
    /\ (In enthusiasm_advice (feedback r) <-> (c < 0.4)%Q).
Proof.
  intros H n wc f c.
  destruct (final_explicit self text H) as (r & Hr & _ & Hs & _ & Hk & Hg & _).
  exists r, (calls_of self text). split; [exact Hr|].
  destruct (feedback_items r) as (_ & _ & Hpace & Hfill & Henth).
  rewrite Hpace, Hfill, Henth.
  rewrite speech_returns in Hs. rewrite (clarity_explicit self text H) in Hk.
  rewrite (engagement_words self text H) in Hg.
  cbv zeta in Hk, Hg. cbn [fst] in Hs, Hk, Hg.
  injection Hs as Hs. injection Hk as Hk. injection Hg as Hg.
  rewrite <- Hs, <- Hk, <- Hg.
  cbn [Speech.score Clar.score Engage.score]. fold n c.
  assert (Hwc : 0 < wc).
  { pose proof (len_split_zero (Str.lower text)) as Hz.
    rewrite all_space_lower, H in Hz. apply Z.eqb_neq in Hz.
    pose proof (len_nonneg (Str.split (Str.lower text))). unfold wc. lia. }
  unfold rate_percent_of. cbv zeta. fold wc f.
  rewrite speech_rate_score_words, (clarity_band_percent f wc Hwc).
  clearbody n wc f c. clear Hs Hk Hg Hr Hpace Hfill Henth H.
  split; [|split].
  - repeat match goal with
           | |- context [?a <=? ?b] =>
               destruct (Z.leb_spec a b); cbn [andb orb]
           end; split; intros; lia.
  - repeat match goal with
           | |- context [?a <=? ?b] =>
               destruct (Z.leb_spec a b); cbn [andb orb]
           end; split; intros; lia.
  - unfold engagement_band, Qdiv. change (/ 2)%Q with (1 # 2)%Q.
    repeat match goal with
           | |- context [if ?b then _ else _] => destruct b eqn:?
           end;
      compare_all; split; intros; try lia; try lra.
Qed.

Lemma feedback_of_scored_transcript_witness :
  Str.all_space "Hello, my name is Asha" = false
  /\ exists r tr,
      calculate_final_score (no_checker 0.5) "Hello, my name is Asha"
      = (inr r, tr)
      /\ In pace_advice (feedback r)
      /\ ~ In enthusiasm_advice (feedback r).
Proof.
  split; [reflexivity|].
  destruct (feedback_of_scored_transcript (no_checker 0.5)
              "Hello, my name is Asha" eq_refl)
    as (r & tr & Hr & Hp & _ & He).
  exists r, tr. split; [exact Hr|]. split.
  - apply Hp. vm_compute. intros [[H _] | [[H _] | [H _]]]; apply H; reflexivity.
  - intros Hin. apply He in Hin. vm_compute in Hin. discriminate Hin.
Defined.

(** ** Further properties: the application *)


(** ** Further properties: loading the collaborators *)

(** X17.  When [LanguageTool] fails to load, one warning is printed, and
    the engine built without it scores every transcript with a word: it
    asks no grammar checker and gives the grammar score 10. *)
Theorem scoring_without_language_tool (e : string)
  (analyzer : SentimentIntensityAnalyzer) (text : string) :
  Str.all_space text = false ->
  let self := init (inl e) analyzer in
  snd (load_language_tool (inl e))
  = ["Warning: LanguageTool failed to load: " ++ e]
  /\ exists r,
      calculate_final_score self text
      = (inr r,
         [Invoked ContentStructure; Invoked SpeechRate;
          Invoked LanguageGrammar; Invoked Clarity; Invoked Engagement;
          PolarityScores text])
      /\ Language.grammar_score (language_and_grammar r) = 10.
Proof.
  intros H self. split; [reflexivity|].
  destruct (final_explicit self text H) as (r & Hr & _ & _ & Hl & _).
  exists r. split; [exact Hr|].
  assert (He : count_errors self text = (inr 0, [])) by reflexivity.
  rewrite (language_words self text 0 [] H He) in Hl.
  cbv zeta in Hl. cbn [fst] in Hl. injection Hl as Hl. rewrite <- Hl.
  cbn [Language.grammar_score].
  assert (Hwc : 0 < Str.len (Str.split text)).
  { pose proof (len_split_zero text) as Hz. rewrite H in Hz.
    apply Z.eqb_neq in Hz. pose proof (len_nonneg (Str.split text)). lia. }
  rewrite (grammar_band_errors 0 _ (Z.le_refl 0) Hwc).
  destruct (Z.leb_spec (100 * 0) (Str.len (Str.split text)));
    [reflexivity | lia].
Qed.

Lemma scoring_without_language_tool_witness :
  Str.all_space "my name is asha" = false
  /\ exists r,
      calculate_final_score
        (init (inl "java not found") (vader_analyzer (no_checker 0)))
        "my name is asha"
      = (inr r,
         [Invoked ContentStructure; Invoked SpeechRate;
          Invoked LanguageGrammar; Invoked Clarity; Invoked Engagement;
          PolarityScores "my name is asha"])
      /\ Language.grammar_score (language_and_grammar r) = 10.
Proof.
  split; [reflexivity|].
  apply (scoring_without_language_tool "java not found"
           (vader_analyzer (no_checker 0)) "my name is asha" eq_refl).
Defined.

Section Downloads.

Context {store : Type} (nltk : Nltk store).

Hypothesis download_gets : forall path name st,
    In (path, name) resources ->
    data_find nltk (download nltk name st) path = true.

Hypothesis download_keeps : forall name st path,
    data_find nltk st path = true ->
    data_find nltk (download nltk name st) path = true.

Lemma downloads_fold (rs : list (string * string)) (st : store)
  (names : list string) :
  incl rs resources ->
  (forall path, data_find nltk st path = true ->
                data_find nltk (fst (fold_left (download_step nltk) rs (st, names))) path = true)
  /\ (forall path name, In (path, name) rs ->
        data_find nltk (fst (fold_left (download_step nltk) rs (st, names))) path = true)
  /\ (forall name, In name (snd (fold_left (download_step nltk) rs (st, names))) ->
        In name names
        \/ exists path, In (path, name) rs /\ data_find nltk st path = false).
Proof.
  revert st names. induction rs as [|[path name] rs IH]; intros st names Hincl.
  - cbn [fold_left fst snd]. repeat split; auto; try (intros ? ? []).
  - assert (Hrs : incl rs resources)
      by (intros x Hx; apply Hincl; now right).
    assert (Hhere : In (path, name) resources) by (apply Hincl; now left).
    cbn [fold_left]. unfold download_step at 2 4 6. cbn [fst snd].
    destruct (data_find nltk st path) eqn:Hfound.
    + destruct (IH st names Hrs) as (Hkeep & Hall & Hnames).
      split; [exact Hkeep|]. split.
      * intros p n [E | Hin]; [injection E as <- <-; now apply Hkeep|].
        now apply (Hall p n).
      * intros n Hn. destruct (Hnames n Hn) as [Hold | (p & Hp & Hmiss)];
          [now left|]. right. exists p. split; [now right | exact Hmiss].
    + destruct (IH (download nltk name st) (names ++ [name])%list Hrs)
        as (Hkeep & Hall & Hnames).
      split; [intros p Hp; now apply Hkeep, download_keeps|]. split.
      * intros p n [E | Hin];
          [injection E as <- <-; now apply Hkeep, download_gets|].
        now apply (Hall p n).
      * intros n Hn. destruct (Hnames n Hn) as [Hold | (p & Hp & Hmiss)].
        -- apply in_app_or in Hold as [Hold | [<- | []]]; [now left|].
           right. exists path. split; [now left | exact Hfound].
        -- right. exists p. split; [now right|].
           destruct (data_find nltk st p) eqn:Hst; [|reflexivity].
           apply (download_keeps name) in Hst. congruence.
Qed.

Lemma downloads_nothing_missing (rs : list (string * string)) (st : store)
  (names : list string) :
  (forall path name, In (path, name) rs -> data_find nltk st path = true) ->
  fold_left (download_step nltk) rs (st, names) = (st, names).
Proof.
  induction rs as [|[path name] rs IH]; intros H; [reflexivity|].
  cbn [fold_left]. unfold download_step at 2. cbn [fst snd].
  rewrite (H path name) by now left.
  apply IH. intros p n Hin. apply (H p n). now right.
Qed.

(** X18.  With an NLTK whose download of a listed resource makes its path
    found, and whose downloads remove nothing: after [download_nltk_data]
    every listed path is found; every name it downloaded is that of a
    listed resource that was missing before the call; and a second call
    downloads nothing and leaves the state as it is. *)
Theorem download_nltk_data_completes :
  forall st,
    (forall path name, In (path, name) resources ->
        data_find nltk (fst (download_nltk_data nltk st)) path = true)
    /\ (forall name, In name (snd (download_nltk_data nltk st)) ->
          exists path,
            In (path, name) resources /\ data_find nltk st path = false)
    /\ download_nltk_data nltk (fst (download_nltk_data nltk st))
       = (fst (download_nltk_data nltk st), []).
Proof.
  intros st.
  destruct (downloads_fold resources st [] (incl_refl _))
    as (_ & Hall & Hnames).
  change (fold_left (download_step nltk) resources (st, []))
    with (download_nltk_data nltk st) in Hall, Hnames.
  split; [exact Hall|]. split.
  - intros name Hn. destruct (Hnames name Hn) as [[] | H]. exact H.
  - exact (downloads_nothing_missing resources _ [] Hall).
Qed.

End Downloads.

Lemma listed_nltk_gets (path name : string) (st : list string) :
  In (path, name) resources ->
  data_find listed_nltk (download listed_nltk name st) path = true.
Proof.
  unfold resources. cbn [In].
  intros [H | [H | [H | [H | [H | []]]]]]; injection H as <- <-;
    cbn [listed_nltk data_find download]; unfold Str.mem; cbn [existsb];
    apply orb_true_iff; left; apply String.eqb_refl.
Qed.

Lemma listed_nltk_keeps (name : string) (st : list string) (path : string) :
  data_find listed_nltk st path = true ->
  data_find listed_nltk (download listed_nltk name st) path = true.
Proof.
  cbn [listed_nltk data_find download]. intros H.
  destruct (find _ resources); [|exact H].
  unfold Str.mem in *. cbn [existsb]. rewrite H. apply orb_true_r.
Qed.

Lemma download_nltk_data_completes_witness :
  snd (download_nltk_data listed_nltk ["corpora/brown"])
  = ["punkt"; "punkt_tab"; "averaged_perceptron_tagger"; "vader_lexicon"]
  /\ download_nltk_data listed_nltk
       (fst (download_nltk_data listed_nltk ["corpora/brown"]))
     = (fst (download_nltk_data listed_nltk ["corpora/brown"]), []).
Proof.
  split; [reflexivity|].
  apply (download_nltk_data_completes listed_nltk listed_nltk_gets
           listed_nltk_keeps ["corpora/brown"]).
Defined.

(** ** Further properties: the evaluators on a blank transcript *)

Lemma prefix_all_space (p s : string) :
  prefix p s = true -> Str.all_space s = true -> Str.all_space p = true.
Proof.
  revert s. induction p as [|a p IH]; intros s; [reflexivity|].
  destruct s as [|c s]; [discriminate|]. cbn [prefix Str.all_space].
  destruct (ascii_dec a c) as [E|]; [subst c | discriminate].
  intros Hp Hs. apply andb_prop in Hs as [Ha Hs].
  rewrite Ha. cbn [andb]. now apply (IH s).
Qed.

Lemma contains_blank (p s : string) :
  Str.all_space s = true -> Str.all_space p = false ->
  Str.contains p s = false.
Proof.
  intros Hs Hp. induction s as [|c s IH]; cbn [Str.contains].
  - destruct (prefix p "") eqn:E; [|reflexivity].
    apply prefix_all_space in E; [congruence | reflexivity].
  - destruct (prefix p (String c s)) eqn:E.
    + apply prefix_all_space in E; [congruence | exact Hs].
    + cbn [Str.all_space] in Hs. apply andb_prop in Hs as [_ Hs]. now apply IH.
Qed.

Lemma any_in_blank (patterns : list string) (s : string) :
  forallb (fun p => negb (Str.all_space p)) patterns = true ->
  Str.all_space s = true ->
  Str.any_in patterns s = false.
Proof.
  intros Hp Hs. unfold Str.any_in.
  induction patterns as [|p ps IH]; [reflexivity|].
  cbn [forallb existsb] in *. apply andb_prop in Hp as [Hp Hps].
  rewrite (contains_blank p s Hs) by now apply negb_true_iff.
  now apply IH.
Qed.

Lemma keyword_points_blank (points : Z) (table : list (string * list string))
  (s : string) :
  forallb (fun kv => forallb (fun p => negb (Str.all_space p)) (snd kv)) table
  = true ->
  Str.all_space s = true ->
  keyword_points points table s = 0.
Proof.
  intros Ht Hs. rewrite keyword_points_counts. unfold present.
  replace (filter (fun kv => Str.any_in (snd kv) s) table) with
    (@nil (string * list string)); [cbn; lia|].
  induction table as [|kv table IH]; [reflexivity|].
  cbn [forallb filter] in *. apply andb_prop in Ht as [Hkv Ht].
  rewrite (any_in_blank (snd kv) s Hkv Hs). now apply IH.
Qed.

(** X19.  On an empty or white-space-only transcript the five evaluators,
    called on their own, do not return zeros: content gives flow 5 and
    total 5 with the other sub-scores 0, speech rate gives wpm 0 and
    score 2, language gives 0 for both sub-scores without asking the
    checker, clarity gives 15 and engagement gives 3 without asking the
    analyzer; these would add up to 25. *)
Theorem evaluators_on_blank_transcript (self : IntroductionScorer)
  (text : string) :
  Str.all_space text = true ->
  evaluate_content_structure self text
  = (inr {| Content.salutation_score := 0;
            Content.keyword_must_have_score := 0;
            Content.keyword_good_to_have_score := 0;
            Content.flow_score := 5;
            Content.total := 5 |},
     [Invoked ContentStructure])
  /\ evaluate_speech_rate self text
     = (inr {| Speech.wpm := 0; Speech.score := 2 |}, [Invoked SpeechRate])
  /\ evaluate_language_grammar self text
     = (inr {| Language.grammar_score := 0;
               Language.vocabulary_richness_score := 0;
               Language.total := 0 |},
        [Invoked LanguageGrammar])
  /\ evaluate_clarity self text
     = (inr {| Clar.filler_word_count := 0;
               Clar.filler_word_rate_percent := 0;
               Clar.score := 15 |},
        [Invoked Clarity])
  /\ evaluate_engagement self text
     = (inr {| Engage.sentiment_positive_probability := 0;
               Engage.score := 3 |},
        [Invoked Engagement]).
Proof.
  intros H.
  assert (Hl : Str.all_space (Str.lower text) = true)
    by now rewrite all_space_lower.
  split; [|split; [|split; [|split]]].
  - rewrite content_explicit. cbv zeta.
    rewrite (keyword_points_blank 4 must_haves _ eq_refl Hl),
      (keyword_points_blank 2 good_to_haves _ eq_refl Hl).
    unfold salutation.
    rewrite (any_in_blank strong_salutations _ eq_refl Hl),
      (any_in_blank good_salutations _ eq_refl Hl),
      (any_in_blank basic_salutations _ eq_refl Hl).
    unfold flow_value, name_before_salutation, closing_before_name,
      hobbies_before_name.
    rewrite (name_index_absent _
               (any_in_blank ["name is"; "i am"; "my name"] _ eq_refl Hl)).
    cbn [Z.eqb negb andb]. rewrite !andb_false_r. reflexivity.
  - rewrite speech_returns.
    pose proof (len_split_zero text) as Hz. rewrite H in Hz.
    apply Z.eqb_eq in Hz. rewrite Hz. reflexivity.
  - unfold evaluate_language_grammar. cbv zeta.
    now rewrite len_split_zero, H.
  - now apply clarity_blank.
  - now apply engagement_blank.
Qed.

Lemma evaluators_on_blank_transcript_witness :
  Str.all_space "   " = true
  /\ evaluate_content_structure (no_checker 0) "   "
     = (inr {| Content.salutation_score := 0;
               Content.keyword_must_have_score := 0;
               Content.keyword_good_to_have_score := 0;
               Content.flow_score := 5;
               Content.total := 5 |},
        [Invoked ContentStructure]).
Proof.
  split; [reflexivity|].
  apply (evaluators_on_blank_transcript (no_checker 0) "   " eq_refl).
Defined.

(** ** Further properties: the clamp *)

(** X20.  The clamp of line 319 never changes anything: for every
    transcript the sum of the five category results of the report lies
    between 0 and 100 and the overall score is that sum. *)
Theorem clamp_never_changes_the_sum (self : IntroductionScorer)
  (text : string) :
  exists r tr,
    calculate_final_score self text = (inr r, tr)
    /\ 0 <= Content.total (content_and_structure r)
            + Speech.score (speech_rate r)
            + Language.total (language_and_grammar r)
            + Clar.score (clarity r)
            + Engage.score (engagement r) <= 100
    /\ overall_score r
       = Content.total (content_and_structure r)
         + Speech.score (speech_rate r)
         + Language.total (language_and_grammar r)
         + Clar.score (clarity r)
         + Engage.score (engagement r).
Proof.
  destruct (final_returns self text) as (r & tr & Hr & Ho & Hw & _).
  exists r, tr. split; [exact Hr|].
  unfold categories_within in Hw. unfold category_sum in Ho. lia.
Qed.
